(** * Expense tracker: record store, flat-row codec and budget report

    A shallow embedding of [app.py]: the [Expense] class with its class-level
    ID counter, the CSV save/load pair, the CRUD operations on the global
    [expenses] list, [filter_expenses] and [check_budgets].

    Conventions.
    - Python [float] is IEEE binary64: amounts are Rocq's primitive floats,
      added, subtracted and compared with the kernel's binary64 operations.
    - Python [int] is unbounded: IDs and counters are [Z].
    - [str] is [string]; only ASCII case folding and ASCII white space are
      modelled for [str.lower] and [str.strip].
    - The module state is the pair of the global list [expenses] and the
      class variable [Expense._next_id]; every operation passes it explicitly.
    - The text conversions of the interpreter ([float(s)], [int(s)],
      [str(x)], [datetime.fromisoformat]) are an interface, [PyText]; a
      conversion that raises [ValueError] returns [None].
    - The [csv] module is the persistence boundary: a file is the list of its
      rows, each row the six column strings. *)

From Stdlib Require Import ZArith String Ascii List Bool Lia DecimalString.
From Stdlib Require Import Floats.PrimFloat Floats.SpecFloat Floats.FloatOps.
From stdpp Require Import base option list strings gmap.

Local Open Scope Z_scope.

(** ** Strings *)

Module Str.

(** [sep.join(l)] *)
Fixpoint join (sep : string) (l : list string) : string :=
  match l with
  | [] => ""
  | [x] => x
  | x :: rest => x +:+ sep +:+ join sep rest
  end.

(** [s.split(c)] for a one-character separator: never returns the empty
    list, [''.split('|') == ['']]. *)
Fixpoint split (c : ascii) (s : string) : list string :=
  match s with
  | EmptyString => [""]
  | String a s' =>
      if Ascii.eqb a c then "" :: split c s'
      else match split c s' with
           | [] => [String a ""]
           | x :: xs => String a x :: xs
           end
  end.

(** [c in s] for a character. *)
Fixpoint contains (c : ascii) (s : string) : bool :=
  match s with
  | EmptyString => false
  | String a s' => Ascii.eqb a c || contains c s'
  end.

(** ASCII white space as [str.strip()] sees it: TAB, LF, VT, FF, CR, the four
    separators 0x1c-0x1f and the space. *)
Definition is_space (a : ascii) : bool :=
  let n := nat_of_ascii a in
  ((9 <=? n)%nat && (n <=? 13)%nat) || ((28 <=? n)%nat && (n <=? 32)%nat).

Fixpoint lstrip (s : string) : string :=
  match s with
  | EmptyString => ""
  | String a s' => if is_space a then lstrip s' else s
  end.

Fixpoint rstrip (s : string) : string :=
  match s with
  | EmptyString => ""
  | String a s' =>
      match rstrip s' with
      | EmptyString => if is_space a then "" else String a ""
      | t => String a t
      end
  end.

(** [s.strip()] *)
Definition strip (s : string) : string := rstrip (lstrip s).

Definition lower_ascii (a : ascii) : ascii :=
  let n := nat_of_ascii a in
  if ((65 <=? n)%nat && (n <=? 90)%nat) then ascii_of_nat (n + 32) else a.

(** [s.lower()] *)
Fixpoint lower (s : string) : string :=
  match s with
  | EmptyString => ""
  | String a s' => String (lower_ascii a) (lower s')
  end.

(** Truthiness of a [str]: the empty string is falsy. *)
Definition truthy (s : string) : bool :=
  match s with EmptyString => false | _ => true end.

End Str.

(** ** Dates *)

(** A naive [datetime]. The constructor of the Python class rejects fields out
    of range, so an object always has [1 <= year <= 9999], [month <= 12],
    [day <= 31], [hour < 24], [minute, second < 60], [microsecond < 10^6]. *)
Record datetime : Type := mkDatetime {
  year : N; month : N; day : N;
  hour : N; minute : N; second : N; microsecond : N
}.

Definition digit (n : N) : ascii := ascii_of_N (48 + n mod 10).

(** The [w] low decimal digits of [n], most significant first: what
    ["%0wd" % n] prints for a field in range. *)
Fixpoint digits (w : nat) (n : N) : list ascii :=
  match w with
  | O => []
  | S w' => digits w' (n / 10) ++ [digit n]
  end.

Definition zfill (w : nat) (n : N) : string := string_of_list_ascii (digits w n).

(** [d.strftime('%Y-%m-%d')], the rendering used by [__str__] and by the
    HTTP responses. *)
Definition strftime_ymd (d : datetime) : string :=
  zfill 4 (year d) +:+ "-" +:+ zfill 2 (month d) +:+ "-" +:+ zfill 2 (day d).

(** [d.isoformat()] of a naive datetime:
    [YYYY-MM-DDTHH:MM:SS], followed by [.ffffff] when [microsecond != 0]. *)
Definition iso_time (d : datetime) : string :=
  zfill 2 (hour d) +:+ ":" +:+ zfill 2 (minute d) +:+ ":" +:+ zfill 2 (second d)
  +:+ (if N.eqb (microsecond d) 0 then "" else "." +:+ zfill 6 (microsecond d)).

Definition isoformat (d : datetime) : string :=
  strftime_ymd d +:+ "T" +:+ iso_time d.

(** ** The interpreter's text conversions *)

Class PyText : Type := {
  (** [float(s)]; [None] is [ValueError] *)
  py_float : string -> option float;
  (** [str(x)] of a float, as [csv.writer] writes it *)
  py_str_float : float -> string;
  (** [int(s)]; [None] is [ValueError] *)
  py_int : string -> option Z;
  (** [str(n)] of an int *)
  py_str_int : Z -> string;
  (** [datetime.fromisoformat(s)]; [None] is [ValueError] *)
  fromisoformat : string -> option datetime
}.

(** ** The [Expense] class *)

Record Expense : Type := mkExpense {
  id : Z;
  amount : float;
  category : string;
  date : datetime;
  description : string;
  tags : list string
}.

(** Attribute assignment [e.f = v] on an [Expense] object. *)
Definition set_id (e : Expense) (v : Z) : Expense :=
  mkExpense v (amount e) (category e) (date e) (description e) (tags e).
Definition set_amount (e : Expense) (v : float) : Expense :=
  mkExpense (id e) v (category e) (date e) (description e) (tags e).
Definition set_category (e : Expense) (v : string) : Expense :=
  mkExpense (id e) (amount e) v (date e) (description e) (tags e).
Definition set_date (e : Expense) (v : datetime) : Expense :=
  mkExpense (id e) (amount e) (category e) v (description e) (tags e).
Definition set_description (e : Expense) (v : string) : Expense :=
  mkExpense (id e) (amount e) (category e) (date e) v (tags e).
Definition set_tags (e : Expense) (v : list string) : Expense :=
  mkExpense (id e) (amount e) (category e) (date e) (description e) v.

(** [tags or []]: [None] and the empty list both give the empty list. *)
Definition tags_or_empty (t : option (list string)) : list string :=
  match t with
  | Some (x :: l) => x :: l
  | _ => []
  end.

(** [Expense.__init__], threading the class variable [_next_id]: the new
    object takes the counter as its ID and the counter is incremented. *)
Definition Expense_init (amount : float) (category : string) (date : datetime)
    (description : string) (tags : option (list string)) (_next_id : Z)
    : Expense * Z :=
  (mkExpense _next_id amount category date description (tags_or_empty tags),
   _next_id + 1).

(** [Expense.to_dict]: the dictionary keeps the numbers and the tag list,
    and renders the date with [isoformat]. *)
Record expense_dict : Type := mkDict {
  d_id : Z;
  d_amount : float;
  d_category : string;
  d_date : string;
  d_description : string;
  d_tags : list string
}.

Definition to_dict (e : Expense) : expense_dict :=
  mkDict (id e) (amount e) (category e) (isoformat (date e))
         (description e) (tags e).

(** ** Module state *)

(** The global list [expenses] and the class variable [Expense._next_id]. *)
Record store : Type := mkStore {
  expenses : list Expense;
  next_id : Z
}.

(** The state of a freshly imported module. *)
Definition initial_store : store := mkStore [] 1.

(** ** Persistence *)

(** One CSV row under the header [id,amount,category,date,description,tags]. *)
Record row : Type := mkRow {
  r_id : string;
  r_amount : string;
  r_category : string;
  r_date : string;
  r_description : string;
  r_tags : string
}.

Section Persistence.
Context `{PyText}.

(** What [csv.DictWriter] writes for one dictionary after [save_expenses] has
    replaced the tag list by ["|".join(tags)]: every value through [str]. *)
Definition write_row (d : expense_dict) : row :=
  mkRow (py_str_int (d_id d)) (py_str_float (d_amount d)) (d_category d)
        (d_date d) (d_description d) (Str.join "|" (d_tags d)).

(** [save_expenses]: the rows written to [DATA_FILE], in list order. *)
Definition save_expenses (expense_list : list Expense) : list row :=
  map write_row (map to_dict expense_list).

(** The body of the [for] loop of [load_expenses] on one row. [None] is an
    exception raised by one of the three conversions, before the [Expense]
    constructor runs; otherwise the new object (ID overwritten by the stored
    one) and the counter advanced by the constructor. *)
Definition load_row (expense_dict : row) (_next_id : Z) : option (Expense * Z) :=
  match py_float (r_amount expense_dict) with
  | None => None
  | Some amount =>
    match py_int (r_id expense_dict) with
    | None => None
    | Some expense_id =>
      match fromisoformat (r_date expense_dict) with
      | None => None
      | Some date_obj =>
        let tags_list :=
          if Str.truthy (r_tags expense_dict)
          then Str.split "|" (r_tags expense_dict) else [] in
        let '(temp_expense, n') :=
          Expense_init amount (r_category expense_dict) date_obj
                       (r_description expense_dict) (Some tags_list) _next_id in
        Some (set_id temp_expense expense_id, n')
      end
    end
  end.

(** The [for] loop, with its three variables [loaded_expenses], [max_id] and
    [Expense._next_id]. The first component is [None] when a row raised; the
    counter is returned in both cases, since the constructor calls made before
    the exception are not undone. *)
Fixpoint load_loop (expense_dicts : list row) (loaded_expenses : list Expense)
    (max_id : Z) (_next_id : Z) : option (list Expense * Z) * Z :=
  match expense_dicts with
  | [] => (Some (loaded_expenses, max_id), _next_id)
  | expense_dict :: rest =>
      match load_row expense_dict _next_id with
      | None => (None, _next_id)
      | Some (temp_expense, n') =>
          load_loop rest (loaded_expenses ++ [temp_expense])
                    (Z.max max_id (id temp_expense)) n'
      end
  end.

(** [load_expenses]. The file is [None] when [DATA_FILE] does not exist
    ([FileNotFoundError]). Any other exception is caught by the outer
    [except Exception] clause, which returns the empty list. Returns the list
    and the new value of [Expense._next_id]. *)
Definition load_expenses (file : option (list row)) (_next_id : Z)
    : list Expense * Z :=
  match file with
  | None => ([], _next_id)
  | Some expense_dicts =>
      match load_loop expense_dicts [] 0 _next_id with
      | (Some (loaded_expenses, max_id), n') =>
          (loaded_expenses, if 0 <? max_id then max_id + 1 else n')
      | (None, n') => ([], n')
      end
  end.

(** Start-up, as [run_cli] and the API's start-up hook do it: the global list
    is replaced by what [load_expenses] returns. *)
Definition startup_load (file : option (list row)) (st : store) : store :=
  let '(loaded, n') := load_expenses file (next_id st) in
  mkStore loaded n'.

(** ** CRUD *)

(** [create_expense]: the date is parsed first; on [ValueError] the function
    returns [None] before touching the list or the counter. *)
Definition create_expense (amount : float) (category date_str description : string)
    (tags : option (list string)) (st : store) : option Expense * store :=
  match fromisoformat date_str with
  | None => (None, st)
  | Some date_obj =>
      let '(new_expense, n') :=
        Expense_init amount category date_obj description tags (next_id st) in
      (Some new_expense, mkStore (expenses st ++ [new_expense]) n')
  end.

(** [get_expense]: the first expense of the list with the given ID. *)
Fixpoint get_expense (l : list Expense) (expense_id : Z) : option Expense :=
  match l with
  | [] => None
  | expense :: rest =>
      if id expense =? expense_id then Some expense
      else get_expense rest expense_id
  end.

(** The assignments of [update_expense] on the object found, in source order:
    amount, category, date, description, tags. The object is mutated as the
    assignments run, so a date that does not parse returns [False] with the
    amount and category assignments already made. *)
Definition update_fields (expense : Expense) (amount : option float)
    (category date_str description : option string)
    (tags : option (list string)) : bool * Expense :=
  let e1 := match amount with Some a => set_amount expense a | None => expense end in
  let e2 := match category with Some c => set_category e1 c | None => e1 end in
  let after_date (e3 : Expense) :=
    let e4 := match description with
              | Some d => set_description e3 d | None => e3 end in
    let e5 := match tags with Some t => set_tags e4 t | None => e4 end in
    (true, e5) in
  match date_str with
  | None => after_date e2
  | Some s =>
      match fromisoformat s with
      | None => (false, e2)
      | Some d => after_date (set_date e2 d)
      end
  end.

(** The list after the object returned by [get_expense] has been mutated: the
    first element with the ID is replaced, the others are untouched. [None]
    when no element has the ID. *)
Fixpoint update_in_list (l : list Expense) (expense_id : Z)
    (amount : option float) (category date_str description : option string)
    (tags : option (list string)) : option (bool * list Expense) :=
  match l with
  | [] => None
  | expense :: rest =>
      if id expense =? expense_id then
        let '(ok, e') := update_fields expense amount category date_str
                                       description tags in
        Some (ok, e' :: rest)
      else
        match update_in_list rest expense_id amount category date_str
                             description tags with
        | Some (ok, rest') => Some (ok, expense :: rest')
        | None => None
        end
  end.

(** [update_expense] *)
Definition update_expense (expense_id : Z) (amount : option float)
    (category date_str description : option string)
    (tags : option (list string)) (st : store) : bool * store :=
  match update_in_list (expenses st) expense_id amount category date_str
                       description tags with
  | Some (ok, l') => (ok, mkStore l' (next_id st))
  | None => (false, st)
  end.

(** [delete_expense] *)
Definition delete_expense (expense_id : Z) (st : store) : bool * store :=
  let initial_length := length (expenses st) in
  let l' := filter (fun e => negb (id e =? expense_id)) (expenses st) in
  ((length l' <? initial_length)%nat, mkStore l' (next_id st)).

End Persistence.

(** ** Filtering *)

(** The guard [if arg and arg.strip()]: the argument is given, is not the
    empty string, and is not made of white space only. *)
Definition supplied (arg : option string) : bool :=
  match arg with
  | Some s => Str.truthy s && Str.truthy (Str.strip s)
  | None => false
  end.

(** [e.category.lower() == category.strip().lower()] *)
Definition category_matches (search : string) (e : Expense) : bool :=
  String.eqb (Str.lower e.(category)) (Str.lower (Str.strip search)).

(** [search_tag in [t.lower() for t in e.tags]] with
    [search_tag = tag.strip().lower()] *)
Definition tag_matches (tag : string) (e : Expense) : bool :=
  let search_tag := Str.lower (Str.strip tag) in
  existsb (String.eqb search_tag) (map Str.lower e.(tags)).

(** [filter_expenses] on the global list. *)
Definition filter_expenses (category tag : option string) (expenses : list Expense)
    : list Expense :=
  let filtered_list := expenses in
  let filtered_list :=
    match category with
    | Some c => if supplied category
                then filter (fun e => category_matches c e) filtered_list
                else filtered_list
    | None => filtered_list
    end in
  let filtered_list :=
    match tag with
    | Some t => if supplied tag
                then filter (fun e => tag_matches t e) filtered_list
                else filtered_list
    | None => filtered_list
    end in
  filtered_list.

(** ** Budgets *)

(** One entry of the ["budgets"] dictionary of the report. *)
Record budget_entry : Type := mkEntry {
  budget : float;
  spent : float;
  remaining : float;
  status : string
}.

(** The dictionary returned by [check_budgets]. *)
Record budget_report : Type := mkReport {
  budgets : gmap string budget_entry;
  over_budget_count : Z;
  total_budgets : Z
}.

Definition empty_report : budget_report := mkReport ∅ 0 0.

(** The manual path: one pass over the expenses, accumulating into a
    dictionary keyed by category. The first amount of a category is stored as
    it is, the later ones are added with [+=]. *)
Definition manual_step (spending_summary : gmap string float) (expense : Expense)
    : gmap string float :=
  match spending_summary !! expense.(category) with
  | Some v => <[expense.(category) := PrimFloat.add v expense.(amount)]> spending_summary
  | None => <[expense.(category) := expense.(amount)]> spending_summary
  end.

Definition manual_summary (expenses : list Expense) : gmap string float :=
  foldl manual_step ∅ expenses.

(** The pandas path, [df.groupby('category')['amount'].sum()]. pandas is not
    part of the repository; the expression is modelled by its documented
    meaning: the rows are split into groups by the value of the [category]
    column, and the [amount] column of each group is summed, in row order,
    from zero. The result has one entry per category that occurs. *)
Definition group_amounts (k : string) (df : list expense_dict) : list float :=
  map d_amount (List.filter (fun d => String.eqb (d_category d) k) df).

Definition column_sum (l : list float) : float :=
  foldl PrimFloat.add 0%float l.

Definition groupby_sum (df : list expense_dict) : gmap string float :=
  list_to_map
    (map (fun k => (k, column_sum (group_amounts k df)))
         (remove_dups (map d_category df))).

(** The loop [for category, budget in BUDGETS.items()], identical in the two
    branches of [check_budgets]; [get] is [spending_summary.get(category, 0.00)]. *)
Definition budget_step (spending_summary : gmap string float)
    (acc : gmap string budget_entry * Z) (item : string * float)
    : gmap string budget_entry * Z :=
  let '(results, over_budget_count) := acc in
  let '(category, budget) := item in
  let spent := default 0%float (spending_summary !! category) in
  let remaining := PrimFloat.sub budget spent in
  (<[category := mkEntry budget spent remaining
                   (if PrimFloat.ltb remaining 0%float then "Over Budget" else "Good")]>
     results,
   if PrimFloat.ltb remaining 0%float then over_budget_count + 1
   else over_budget_count).

Definition budget_loop (spending_summary : gmap string float)
    (items : list (string * float)) : gmap string budget_entry * Z :=
  foldl (budget_step spending_summary) (∅, 0) items.

(** [check_budgets]. [CHARTS_AVAILABLE] is the module flag set by the
    optional import; [BUDGETS] is what [load_budgets()] returned. *)
Definition check_budgets (CHARTS_AVAILABLE : bool) (expenses : list Expense)
    (BUDGETS : gmap string float) : budget_report :=
  match expenses with
  | [] => empty_report
  | _ =>
    if Nat.eqb (size BUDGETS) 0 then empty_report
    else
      let spending_summary :=
        if negb CHARTS_AVAILABLE then manual_summary expenses
        else groupby_sum (map to_dict expenses) in
      let '(results, over_budget_count) :=
        budget_loop spending_summary (map_to_list BUDGETS) in
      mkReport results over_budget_count (Z.of_nat (size BUDGETS))
  end.

(** ** A concrete interpreter for the examples

    The theorems below hold for every [PyText]. The examples run the program
    on this one, which implements a fragment of CPython's conversions:
    decimal integers, positional decimal floats, and the ISO forms
    [YYYY-MM-DD], [YYYY-MM-DDTHH:MM:SS] and [YYYY-MM-DDTHH:MM:SS.ffffff].
    Any other text is a [ValueError]. *)

Module Sample.

Definition digit_val (a : ascii) : option N :=
  let n := N_of_ascii a in
  if ((48 <=? n) && (n <=? 57))%N then Some (n - 48)%N else None.

(** The number written by a non-empty run of decimal digits. *)
Fixpoint number_from (acc : N) (l : list ascii) : option N :=
  match l with
  | [] => Some acc
  | a :: l' =>
      match digit_val a with
      | Some v => number_from (10 * acc + v)%N l'
      | None => None
      end
  end.

Definition number (l : list ascii) : option N :=
  match l with [] => None | _ => number_from 0 l end.

(** A field of exactly [w] digits at the head of [l]. *)
Definition field (w : nat) (l : list ascii) : option (N * list ascii) :=
  if (w <=? length l)%nat then
    match number (take w l) with
    | Some n => Some (n, drop w l)
    | None => None
    end
  else None.

Definition expect (c : ascii) (l : list ascii) : option (list ascii) :=
  match l with
  | a :: l' => if Ascii.eqb a c then Some l' else None
  | [] => None
  end.

Definition is_leap (y : N) : bool :=
  ((y mod 4 =? 0) && negb (y mod 100 =? 0) || (y mod 400 =? 0))%N.

Definition days_in_month (y m : N) : N :=
  (if m =? 2 then (if is_leap y then 29 else 28)
   else if (m =? 4) || (m =? 6) || (m =? 9) || (m =? 11) then 30
   else 31)%N.

Definition valid_date (y m d : N) : bool :=
  ((1 <=? y) && (y <=? 9999) && (1 <=? m) && (m <=? 12)
   && (1 <=? d) && (d <=? days_in_month y m))%N.

Definition valid_time (h mi s us : N) : bool :=
  ((h <? 24) && (mi <? 60) && (s <? 60) && (us <? 1000000))%N.

Definition parse_time (l : list ascii) : option (N * N * N * N) :=
  '(h, l) ← field 2 l;
  l ← expect ":" l;
  '(mi, l) ← field 2 l;
  l ← expect ":" l;
  '(s, l) ← field 2 l;
  match l with
  | [] => Some (h, mi, s, 0%N)
  | _ =>
      l ← expect "." l;
      '(us, l) ← field 6 l;
      match l with [] => Some (h, mi, s, us) | _ => None end
  end.

Definition fromisoformat (date_string : string) : option datetime :=
  let l := list_ascii_of_string date_string in
  '(y, l) ← field 4 l;
  l ← expect "-" l;
  '(m, l) ← field 2 l;
  l ← expect "-" l;
  '(d, l) ← field 2 l;
  '(h, mi, s, us) ←
    match l with
    | [] => Some (0, 0, 0, 0)%N
    | _ => l ← expect "T" l; parse_time l
    end;
  if valid_date y m d && valid_time h mi s us
  then Some (mkDatetime y m d h mi s us) else None.

(** [int(s)]: white space around an optionally negative decimal numeral. *)
Definition py_int (s : string) : option Z :=
  match NilZero.int_of_string (Str.strip s) with
  | Some d => Some (Z.of_int d)
  | None => None
  end.

Definition py_str_int (n : Z) : string := NilZero.string_of_int (Z.to_int n).

(** The [w] low decimal digits of a non-negative integer. *)
Fixpoint zdigits (w : nat) (n : Z) : list ascii :=
  match w with
  | O => []
  | S w' => zdigits w' (n / 10) ++ [ascii_of_nat (48 + Z.to_nat (n mod 10))]
  end.

Fixpoint drop_trailing_zeros (l : list ascii) : list ascii :=
  match l with
  | [] => []
  | a :: l' =>
      match drop_trailing_zeros l' with
      | [] => if Ascii.eqb a "0" then [] else [a]
      | t => a :: t
      end
  end.

(** The exact positional decimal expansion of a finite double, with at least
    one digit after the point. It is CPython's [repr] for the doubles whose
    expansion is short (12.5, 120.0, 8.75); [repr] shortens the others. *)
Definition py_str_float (x : float) : string :=
  let sign (s : bool) := if s then "-" else "" in
  match Prim2SF x with
  | S754_zero s => sign s +:+ "0.0"
  | S754_infinity s => sign s +:+ "inf"
  | S754_nan => "nan"
  | S754_finite s m e =>
      if 0 <=? e then
        sign s +:+ py_str_int (Z.pos m * 2 ^ e) +:+ ".0"
      else
        let k := Z.to_nat (- e) in
        let n := Z.pos m * 5 ^ (- e) in
        let frac := drop_trailing_zeros (zdigits k (n mod 10 ^ (- e))) in
        sign s +:+ py_str_int (n / 10 ^ (- e)) +:+ "." +:+
        string_of_list_ascii (match frac with [] => ["0"%char] | _ => frac end)
  end.

(** The digits before the first point, and what follows it. *)
Fixpoint split_point (l : list ascii) : list ascii * list ascii :=
  match l with
  | [] => ([], [])
  | a :: l' =>
      if Ascii.eqb a "." then ([], l')
      else let '(ip, fp) := split_point l' in (a :: ip, fp)
  end.

(** [float(s)] on [[-]digits[.digits]]: the quotient, rounded to nearest, of
    the two integers [digits digits] and [10^k]. *)
Definition py_float (s : string) : option float :=
  let l := list_ascii_of_string (Str.strip s) in
  let '(neg, l) := match l with
                   | a :: l' => if Ascii.eqb a "-" then (true, l') else (false, l)
                   | [] => (false, l)
                   end in
  let '(ip, fp) := split_point l in
  match number (ip ++ fp) with
  | None => None
  | Some mant =>
      let q := SFdiv prec emax
                 (binary_normalize prec emax (Z.of_N mant) 0 neg)
                 (binary_normalize prec emax (10 ^ Z.of_nat (length fp)) 0 false) in
      Some (SF2Prim q)
  end.

#[global] Instance runtime : PyText :=
  Build_PyText py_float py_str_float py_int py_str_int fromisoformat.

End Sample.

(** ** The record codec *)

Section Codec.
Context `{PyText}.

(** [encode]: the row [save_expenses] writes for one expense. *)
Definition encode_row (e : Expense) : row := write_row (to_dict e).

(** [decode]: the expense the loop of [load_expenses] builds from one row,
    the counter set aside; [None] when a conversion raises. *)
Definition decode_row (r : row) : option Expense :=
  match load_row r 0 with
  | Some (e, _) => Some e
  | None => None
  end.

Definition row_decodes (r : row) : bool :=
  match decode_row r with Some _ => true | None => false end.

(** The loading policy as the specification words it: every row that decodes
    is loaded, a row that does not is skipped. *)
Definition load_skipping_spec (rows : list row) : list Expense :=
  omap decode_row rows.

(** The three conversions give back the ID, the amount and the date of the
    expense from their text. This is a property of the interpreter at these
    values, not of the program. *)
Definition text_round_trips (e : Expense) : Prop :=
  py_int (py_str_int (id e)) = Some (id e)
  ∧ py_float (py_str_float (amount e)) = Some (amount e)
  ∧ fromisoformat (isoformat (date e)) = Some (date e).

End Codec.

(** No tag contains the separator, and the tag list is not the single empty
    tag. *)
Definition valid_tags (e : Expense) : Prop :=
  Forall (fun t => Str.contains "|" t = false) (tags e) ∧ tags e ≠ [""].

(** The IDs of a list of expenses, in order. *)
Definition ids (l : list Expense) : list Z := map id l.

(** [max(existing IDs)], 0 for the empty collection. *)
Definition max_ids (l : list Expense) : Z := foldr Z.max 0 (ids l).

(** ** Shapes of date text *)




(** ** Selection, as the specification words it *)

(** A record passes when each criterion that is supplied holds for it: its
    category, lower-cased, is the trimmed and lower-cased argument, and one of
    its tags, lower-cased, is the trimmed and lower-cased tag argument. *)
Definition passes_category (arg : option string) (e : Expense) : Prop :=
  match arg with
  | Some c => supplied arg = true → Str.lower e.(category) = Str.lower (Str.strip c)
  | None => True
  end.

Definition passes_tag (arg : option string) (e : Expense) : Prop :=
  match arg with
  | Some t => supplied arg = true →
              ∃ x, x ∈ e.(tags) ∧ Str.lower x = Str.lower (Str.strip t)
  | None => True
  end.

(** The category test with both operands trimmed, and no guard on the
    argument: the reading of the specification under which an argument always
    selects by equality. *)
Definition category_equal_trimmed (arg : string) (e : Expense) : bool :=
  String.eqb (Str.lower (Str.strip e.(category))) (Str.lower (Str.strip arg)).

(** ** Spending, as the specification words it *)

(** The amounts of the expenses of one category, in list order. *)
Definition amounts_of (c : string) (l : list Expense) : list float :=
  map amount (List.filter (fun e => String.eqb e.(category) c) l).

(** Their sum, added left to right starting with the first amount; [None]
    when the category has no expense. *)
Definition category_total (c : string) (l : list Expense) : option float :=
  match amounts_of c l with
  | [] => None
  | x :: xs => Some (foldl PrimFloat.add x xs)
  end.


(** The report entry of a budget line, given what was spent. *)
Definition entry_of (spent budget : float) : budget_entry :=
  let remaining := PrimFloat.sub budget spent in
  mkEntry budget spent remaining
    (if PrimFloat.ltb remaining 0%float then "Over Budget" else "Good").

Definition over_budget (spent budget : float) : bool :=
  PrimFloat.ltb (PrimFloat.sub budget spent) 0%float.

(** ** The date an update assigns *)

(** The date of the expense after the date step of [update_expense]: the
    old one when no text is supplied, the parsed one when the text parses;
    [None] when it does not. *)
Definition date_after_update `{PyText} (date_str : option string) (old : datetime)
    : option datetime :=
  match date_str with
  | None => Some old
  | Some s => fromisoformat s
  end.

(** ** The command-line interface *)

(** The tags typed at the prompt of [run_cli]:
    [[t.strip() for t in tags_str.split(',') if t.strip()]]. *)
Definition cli_tags (tags_str : string) : list string :=
  map Str.strip
      (List.filter (fun t => Str.truthy (Str.strip t)) (Str.split "," tags_str)).

#[local] Set Warnings "-inexact-float".

(** The list built by [initialize_sample_data]: five constructor calls, each
    taking the counter as its ID. The amount [25.99] is the nearest double,
    as in Python. *)
Definition sample_expenses (_next_id : Z) : list Expense * Z :=
  let '(e1, n) := Expense_init 12.50 "Food" (mkDatetime 2025 10 20 0 0 0 0)
                    "Lunch at cafe" (Some ["lunch"; "work"]) _next_id in
  let '(e2, n) := Expense_init 45.00 "Transport" (mkDatetime 2025 10 21 0 0 0 0)
                    "Gas for car" (Some ["car"; "fuel"]) n in
  let '(e3, n) := Expense_init 25.99 "Entertainment" (mkDatetime 2025 10 22 0 0 0 0)
                    "Movie tickets" (Some ["movies"; "weekend"]) n in
  let '(e4, n) := Expense_init 8.75 "Food" (mkDatetime 2025 10 23 0 0 0 0)
                    "Coffee and pastry" (Some ["coffee"; "morning"]) n in
  let '(e5, n) := Expense_init 120.00 "Utilities" (mkDatetime 2025 10 24 0 0 0 0)
                    "Electric bill" (Some ["bills"; "monthly"]) n in
  ([e1; e2; e3; e4; e5], n).

#[local] Set Warnings "+inexact-float".

(** [initialize_sample_data]: the five expenses are appended to the global
    list. *)
Definition initialize_sample_data (st : store) : store :=
  let '(sample, n) := sample_expenses (next_id st) in
  mkStore (expenses st ++ sample) n.

(** One turn of the menu of [run_cli]: the choice and the answers to the
    prompts of that choice, as typed. *)
Inductive cli_command : Type :=
  | CliAdd (amount category date_str description tags_str : string)
  | CliViewAll
  | CliFilter (category_filter tag_filter : string)
  | CliCharts
  | CliDelete (id_text : string)
  | CliSaveExit
  | CliInvalid (choice : string).

(** The store, the content of [DATA_FILE] ([None] when the file does not
    exist), and whether the loop is still running. *)
Record cli_state : Type := mkCli {
  cli_store : store;
  cli_disk : option (list row);
  cli_running : bool
}.

Section Cli.
Context `{PyText}.

(** The first lines of [run_cli]: load, and fall back on the sample data when
    the loaded list is empty. *)
Definition cli_startup (file : option (list row)) (st : store) : store :=
  let st1 := startup_load file st in
  match expenses st1 with
  | [] => initialize_sample_data st1
  | _ => st1
  end.

(** Choice 1. [float(input(...))] raises [ValueError] before the other
    prompts when the amount is not a number; nothing is created then. *)
Definition cli_add (amount category date_str description tags_str : string)
    (st : store) : store :=
  match py_float amount with
  | None => st
  | Some a => snd (create_expense a category date_str description
                                  (Some (cli_tags tags_str)) st)
  end.

(** Choice 3: the list that is displayed. Both answers are stripped; with
    both blank the whole list is shown, otherwise a blank answer is passed
    as [None]. *)
Definition cli_filter (category_filter tag_filter : string) (l : list Expense)
    : list Expense :=
  let category_filter := Str.strip category_filter in
  let tag_filter := Str.strip tag_filter in
  if negb (Str.truthy category_filter) && negb (Str.truthy tag_filter) then l
  else filter_expenses
         (if Str.truthy category_filter then Some category_filter else None)
         (if Str.truthy tag_filter then Some tag_filter else None) l.

(** Choice 5. [int(input(...))] raises [ValueError] when the ID is not a
    number; nothing is deleted then. *)
Definition cli_delete (id_text : string) (st : store) : store :=
  match py_int id_text with
  | None => st
  | Some i => snd (delete_expense i st)
  end.

(** One turn of the loop. Only choice 6 writes the file, and it ends the
    loop. *)
Definition cli_step (cmd : cli_command) (s : cli_state) : cli_state :=
  match cmd with
  | CliAdd a c ds d t => mkCli (cli_add a c ds d t (cli_store s)) (cli_disk s) true
  | CliDelete i => mkCli (cli_delete i (cli_store s)) (cli_disk s) true
  | CliSaveExit =>
      mkCli (cli_store s) (Some (save_expenses (expenses (cli_store s)))) false
  | CliViewAll | CliFilter _ _ | CliCharts | CliInvalid _ => s
  end.

(** The loop on the turns that are typed; it stops at the first choice 6. If
    the input ends before, the process ends without saving. *)
Fixpoint cli_loop (cmds : list cli_command) (s : cli_state) : cli_state :=
  match cmds with
  | [] => s
  | cmd :: rest =>
      let s' := cli_step cmd s in
      if cli_running s' then cli_loop rest s' else s'
  end.

(** [run_cli] on a data file and the turns typed, in a module whose state is
    [st]. *)
Definition run_cli (file : option (list row)) (cmds : list cli_command)
    (st : store) : cli_state :=
  cli_loop cmds (mkCli (cli_startup file st) file true).

End Cli.

(** ** The HTTP API *)

(** The pydantic models of [api.py]. *)
Record ExpenseCreate : Type := mkCreate {
  ec_amount : float;
  ec_category : string;
  ec_date : string;
  ec_description : string;
  ec_tags : option (list string)
}.

Record ExpenseUpdate : Type := mkUpdate {
  eu_amount : option float;
  eu_category : option string;
  eu_date : option string;
  eu_description : option string;
  eu_tags : option (list string)
}.

Record ExpenseResponse : Type := mkResponse {
  resp_id : Z;
  resp_amount : float;
  resp_category : string;
  resp_date : string;
  resp_description : string;
  resp_tags : list string
}.

(** The response built by every endpoint that returns an expense: the date
    is rendered with [strftime('%Y-%m-%d')]. *)
Definition response_of (e : Expense) : ExpenseResponse :=
  mkResponse (id e) (amount e) (category e) (strftime_ymd (date e))
             (description e) (tags e).

(** The requests on expenses. *)
Inductive request : Type :=
  | GetAllExpenses
  | GetExpenseById (expense_id : Z)
  | CreateNewExpense (expense_data : ExpenseCreate)
  | UpdateExistingExpense (expense_id : Z) (expense_data : ExpenseUpdate)
  | DeleteExistingExpense (expense_id : Z)
  | FilterExpensesEndpoint (category tag : option string)
  | GetSpendingSummary.

(** What a handler returns, or the exception it raises. An exception that is
    not an [HTTPException] is status 500. *)
Inductive response : Type :=
  | ExpenseList (l : list ExpenseResponse)
  | OneExpense (status_code : Z) (r : ExpenseResponse)
  | DeletedMessage (expense_id : Z)
  | SpendingSummary (summary : gmap string float) (total : float)
                    (expense_count : option Z)
  | HTTPException (status_code : Z).

(** The state the handlers work on: the state of the module [app], the
    content of [DATA_FILE], and the global list [expenses] of [api.py]
    itself, which is a different variable from the list of [app]. *)
Record api_state : Type := mkApi {
  app_store : store;
  data_file : option (list row);
  api_expenses : list Expense
}.

Section Api.
Context `{PyText}.

(** [startup_event] in a freshly imported pair of modules: the loaded list is
    given to [app] with [set_expenses]; the list of [api.py] stays empty. *)
Definition api_startup (file : option (list row)) : api_state :=
  mkApi (startup_load file initial_store) file [].

(** The auto-save after a successful mutation:
    [save_expenses(list_expenses())]. *)
Definition auto_save (st : store) (s : api_state) : api_state :=
  mkApi st (Some (save_expenses (expenses st))) (api_expenses s).

(** The handlers. [pandas_available] tells whether [import pandas] succeeds
    in [get_spending_summary]. *)
Definition handle (pandas_available : bool) (rq : request) (s : api_state)
    : response * api_state :=
  match rq with
  | GetAllExpenses =>
      (ExpenseList (map response_of (expenses (app_store s))), s)
  | GetExpenseById expense_id =>
      match get_expense (expenses (app_store s)) expense_id with
      | None => (HTTPException 404, s)
      | Some expense => (OneExpense 200 (response_of expense), s)
      end
  | CreateNewExpense expense_data =>
      match create_expense (ec_amount expense_data) (ec_category expense_data)
              (ec_date expense_data) (ec_description expense_data)
              (ec_tags expense_data) (app_store s) with
      | (None, st) => (HTTPException 400, mkApi st (data_file s) (api_expenses s))
      | (Some new_expense, st) =>
          (OneExpense 201 (response_of new_expense), auto_save st s)
      end
  | UpdateExistingExpense expense_id expense_data =>
      match update_expense expense_id (eu_amount expense_data)
              (eu_category expense_data) (eu_date expense_data)
              (eu_description expense_data) (eu_tags expense_data) (app_store s) with
      | (false, st) => (HTTPException 404, mkApi st (data_file s) (api_expenses s))
      | (true, st) =>
          match get_expense (expenses st) expense_id with
          | Some updated_expense =>
              (OneExpense 200 (response_of updated_expense), auto_save st s)
          | None => (HTTPException 500, auto_save st s)
          end
      end
  | DeleteExistingExpense expense_id =>
      match delete_expense expense_id (app_store s) with
      | (false, st) => (HTTPException 404, mkApi st (data_file s) (api_expenses s))
      | (true, st) => (DeletedMessage expense_id, auto_save st s)
      end
  | FilterExpensesEndpoint category tag =>
      (ExpenseList (map response_of
                      (filter_expenses category tag (expenses (app_store s)))), s)
  | GetSpendingSummary =>
      if negb pandas_available then (HTTPException 500, s)
      else
        match api_expenses s with
        | [] => (SpendingSummary ∅ 0%float None, s)
        | l => (SpendingSummary (groupby_sum (map to_dict l))
                                (column_sum (map amount l))
                                (Some (Z.of_nat (length l))), s)
        end
  end.

(** A sequence of requests, in order. *)
Definition serve (pandas_available : bool) (rqs : list request) (s : api_state)
    : api_state :=
  foldl (fun s rq => snd (handle pandas_available rq s)) s rqs.

End Api.




(** The number of rows at the head of a file that decode. *)
Fixpoint leading_decodable `{PyText} (rows : list row) : nat :=
  match rows with
  | [] => 0
  | r :: rest => if row_decodes r then S (leading_decodable rest) else 0
  end.

(** ** Sequences of store operations *)

(** One call of the public mutators, with its arguments. *)
Inductive op : Type :=
  | OpCreate (amount : float) (category date_str description : string)
             (tags : option (list string))
  | OpUpdate (expense_id : Z) (amount : option float)
             (category date_str description : option string)
             (tags : option (list string))
  | OpDelete (expense_id : Z).

Definition run_op `{PyText} (o : op) (st : store) : store :=
  match o with
  | OpCreate a c ds d t => snd (create_expense a c ds d t st)
  | OpUpdate i a c ds d t => snd (update_expense i a c ds d t st)
  | OpDelete i => snd (delete_expense i st)
  end.

Definition run_ops `{PyText} (ops : list op) (st : store) : store :=
  foldl (fun s o => run_op o s) st ops.

(** The store invariant: the IDs of the live list are pairwise distinct and
    all below the counter. *)
Definition store_inv (st : store) : Prop :=
  NoDup (ids (expenses st)) ∧ Forall (fun e => id e < next_id st) (expenses st).

(** ** Sample data, from [initialize_sample_data] *)

Module Data.
Local Open Scope float_scope.

Definition oct (d : N) : datetime := mkDatetime 2025 10 d 0 0 0 0.

Definition lunch : Expense :=
  mkExpense 1 12.5 "Food" (oct 20) "Lunch at cafe" ["lunch"; "work"].
Definition gas : Expense :=
  mkExpense 2 45 "Transport" (oct 21) "Gas for car" ["car"; "fuel"].
Definition coffee : Expense :=
  mkExpense 4 8.75 "Food" (oct 23) "Coffee and pastry" ["coffee"; "morning"].
Definition bill : Expense :=
  mkExpense 5 120 "Utilities" (oct 24) "Electric bill" [].

End Data.

(** ** Concrete inputs *)

Module Run.
Import Data.
Local Open Scope float_scope.

(** A file with the IDs 3, 7 and 9. *)
Definition rows_3_7_9 : list row :=
  [ mkRow "3" "12.5" "Food" "2025-10-20T00:00:00" "Lunch at cafe" "lunch|work";
    mkRow "7" "45.0" "Transport" "2025-10-21" "Gas for car" "car|fuel";
    mkRow "9" "120.0" "Utilities" "2025-10-24T00:00:00" "Electric bill" "" ].

(** A file whose second row has an amount that is not a number. *)
Definition rows_one_bad : list row :=
  [ mkRow "1" "12.5" "Food" "2025-10-20T00:00:00" "Lunch at cafe" "lunch|work";
    mkRow "2" "forty-five" "Transport" "2025-10-21T00:00:00" "Gas for car" "car|fuel";
    mkRow "4" "8.75" "Food" "2025-10-23T00:00:00" "Coffee and pastry" "coffee|morning" ].

(** An expense whose only tag is the empty string, as the HTTP API accepts
    it. *)
Definition empty_tag : Expense :=
  mkExpense 1 12.5 "Food" (oct 20) "Lunch at cafe" [""].

Definition two_expenses : store := mkStore [lunch; gas] 3.

(** An expense with a tag that contains the separator. *)
Definition piped_tag : Expense :=
  mkExpense 2 45 "Transport" (oct 21) "Gas for car" ["car|fuel"; "trip"].

(** The default budgets of [load_budgets]. *)
Definition default_budgets : gmap string float :=
  list_to_map [("Food", 100); ("Transport", 200); ("Entertainment", 150);
               ("Utilities", 300); ("Shopping", 200); ("Other", 250)].

(** Two expenses of 100 and 20 in the category [Food]. *)
Definition food_120 : list Expense :=
  [ mkExpense 1 100 "Food" (oct 20) "Groceries" [];
    mkExpense 2 20 "Food" (oct 21) "Lunch" [] ].

End Run.

Import Run Data.

(** The store after three creates and the delete of the third expense. *)
Definition after_delete_of_latest : store :=
  mkStore [ mkExpense 1 1%float "Food" (oct 20) "a" [];
            mkExpense 2 2%float "Food" (oct 21) "b" [] ] 4.

(** * Properties *)

(** ** Creation and update with a date that does not parse *)

Section Mutators.
Context `{PyText}.

Lemma create_expense_success amount category date_str description tags st d :
  fromisoformat date_str = Some d →
  create_expense amount category date_str description tags st =
    (Some (mkExpense (next_id st) amount category d description (tags_or_empty tags)),
     mkStore (expenses st ++
              [mkExpense (next_id st) amount category d description (tags_or_empty tags)])
             (next_id st + 1)).
Proof. intros Hd. unfold create_expense. rewrite Hd. reflexivity. Qed.

(** C10. A [create_expense] whose date text does not parse returns [None]
    and returns the store it was given: the list and the counter are the
    same, so the next call behaves as if the failed one had not happened. *)
Theorem create_expense_bad_date_no_effect amount category date_str description tags st :
  fromisoformat date_str = None →
  let r := create_expense amount category date_str description tags st in
  fst r = None ∧ snd r = st
  ∧ expenses (snd r) = expenses st ∧ next_id (snd r) = next_id st
  ∧ ∀ a' c' ds' d' t',
      create_expense a' c' ds' d' t' (snd r) = create_expense a' c' ds' d' t' st.
Proof.
  intros Hd r. subst r. unfold create_expense. rewrite Hd. cbn.
  repeat split; reflexivity.
Qed.

(** [update_fields] never changes the ID of the object. *)
Lemma update_fields_id e a c ds d t :
  id (snd (update_fields e a c ds d t)) = id e.
Proof.
  unfold update_fields.
  destruct ds as [txt|]; [destruct (fromisoformat txt)|];
    destruct a, c, d, t; reflexivity.
Qed.

Lemma update_in_list_ids l i a c ds d t ok l' :
  update_in_list l i a c ds d t = Some (ok, l') → ids l' = ids l.
Proof.
  revert ok l'. induction l as [|e l IH]; intros ok l' Hu; cbn in Hu; [discriminate|].
  destruct (id e =? i).
  - pose proof (update_fields_id e a c ds d t) as Hid.
    destruct (update_fields e a c ds d t) as [ok' e']. cbn in Hid.
    injection Hu as <- <-. cbn. by rewrite Hid.
  - destruct (update_in_list l i a c ds d t) as [[ok' r]|] eqn:Hr; [|discriminate].
    injection Hu as <- <-. cbn. f_equal. by eapply IH.
Qed.

(** With a date that does not parse, the object found has already received
    the amount and the category when [False] is returned; description and
    tags are not assigned. *)
Lemma update_fields_bad_date e a c s d t :
  fromisoformat s = None →
  update_fields e a c (Some s) d t =
    (false,
     mkExpense (id e) (default (amount e) a) (default (category e) c)
               (date e) (description e) (tags e)).
Proof.
  intros Hs. unfold update_fields. rewrite Hs.
  destruct e, a, c; reflexivity.
Qed.

End Mutators.

(** A create with a day-first date on a store of two expenses: nothing
    changes. *)
Lemma create_expense_bad_date_example :
  fromisoformat "20/10/2025" = None
  ∧ let r := create_expense 9.5%float "Food" "20/10/2025" "Snack" None two_expenses in
    fst r = None ∧ snd r = two_expenses
    ∧ expenses (snd r) = expenses two_expenses
    ∧ next_id (snd r) = next_id two_expenses
    ∧ ∀ a' c' ds' d' t',
        create_expense a' c' ds' d' t' (snd r) =
        create_expense a' c' ds' d' t' two_expenses.
Proof.
  split; [reflexivity|].
  apply (create_expense_bad_date_no_effect 9.5%float "Food" "20/10/2025" "Snack"
           None two_expenses).
  reflexivity.
Defined.

Lemma update_in_list_bad_date `{PyText} l i a c s d t e :
  fromisoformat s = None → get_expense l i = Some e →
  ∃ l', update_in_list l i a c (Some s) d t = Some (false, l')
        ∧ get_expense l' i =
            Some (mkExpense (id e) (default (amount e) a) (default (category e) c)
                            (date e) (description e) (tags e))
        ∧ length l' = length l.
Proof.
  intros Hs. induction l as [|x l IH]; cbn [get_expense update_in_list]; [discriminate|].
  destruct (id x =? i) eqn:Hx.
  - intros [= ->]. rewrite update_fields_bad_date by exact Hs.
    eexists. split; [reflexivity|]. cbn [get_expense id]. rewrite Hx. by split.
  - intros Hg. destruct (IH Hg) as (l' & -> & Hg' & Hlen).
    eexists. split; [reflexivity|]. cbn [get_expense]. rewrite Hx.
    split; [exact Hg'|]. cbn [length]. by rewrite Hlen.
Qed.

(** C4, as the code has it. When the expense exists and the date text does
    not parse, [update_expense] returns [False], but the stored expense has
    already received the amount and the category that were supplied; the
    description and the tags are not assigned. The record is left unmodified
    only when neither an amount nor a category was supplied. *)
Theorem update_expense_bad_date `{PyText} (st : store) i a c s d t e :
  fromisoformat s = None → get_expense (expenses st) i = Some e →
  let r := update_expense i a c (Some s) d t st in
  fst r = false
  ∧ get_expense (expenses (snd r)) i =
      Some (mkExpense (id e) (default (amount e) a) (default (category e) c)
                      (date e) (description e) (tags e))
  ∧ length (expenses (snd r)) = length (expenses st)
  ∧ next_id (snd r) = next_id st.
Proof.
  intros Hs Hg r. subst r. unfold update_expense.
  destruct (update_in_list_bad_date (expenses st) i a c s d t e Hs Hg)
    as (l' & -> & Hg' & Hlen).
  cbn [fst snd expenses next_id]. by repeat split.
Qed.

(** The update of expense 1 with a new amount, a new category and a day-first
    date. *)
Lemma update_expense_bad_date_example :
  fromisoformat "20/10/2025" = None
  ∧ get_expense (expenses two_expenses) 1 = Some lunch
  ∧ let r := update_expense 1 (Some 99%float) (Some "Travel") (Some "20/10/2025")
                            (Some "changed") (Some ["x"]) two_expenses in
    fst r = false
    ∧ get_expense (expenses (snd r)) 1 =
        Some (mkExpense 1 99%float "Travel" (oct 20) "Lunch at cafe" ["lunch"; "work"])
    ∧ length (expenses (snd r)) = length (expenses two_expenses)
    ∧ next_id (snd r) = next_id two_expenses.
Proof.
  split; [reflexivity|]. split; [reflexivity|].
  apply (update_expense_bad_date two_expenses 1 (Some 99%float) (Some "Travel")
           "20/10/2025" (Some "changed") (Some ["x"]) lunch); reflexivity.
Defined.

(** The whole store after that call: expense 1 has the new amount and
    category, and its old description and tags. *)
Example update_expense_bad_date_partial :
  update_expense 1 (Some 99%float) (Some "Travel") (Some "20/10/2025")
                 (Some "changed") (Some ["x"]) two_expenses
  = (false,
     mkStore [mkExpense 1 99%float "Travel" (oct 20) "Lunch at cafe" ["lunch"; "work"];
              gas] 3).
Proof. vm_compute. reflexivity. Qed.

(** ** ID uniqueness *)

Section Uniqueness.
Context `{PyText}.

Lemma store_inv_initial : store_inv initial_store.
Proof. split; [apply NoDup_nil_2 | apply Forall_nil_2]. Qed.

Lemma store_inv_create a c ds d t st :
  store_inv st → store_inv (snd (create_expense a c ds d t st)).
Proof.
  intros [Hnd Hlt]. unfold create_expense.
  destruct (fromisoformat ds) as [dt|]; cbn; [|by split].
  split; cbn.
  - unfold ids. rewrite map_app. cbn.
    apply NoDup_app. split; [exact Hnd|]. split; [|apply NoDup_singleton].
    intros x Hx Hx'. apply list_elem_of_singleton in Hx'. subst x.
    apply list_elem_of_fmap in Hx as (e & He & Hin).
    rewrite Forall_forall in Hlt. specialize (Hlt e Hin). lia.
  - apply Forall_app. split.
    + eapply Forall_impl; [exact Hlt|]. cbn. intros; lia.
    + apply Forall_singleton. cbn. lia.
Qed.

Lemma store_inv_update i a c ds d t st :
  store_inv st → store_inv (snd (update_expense i a c ds d t st)).
Proof.
  intros [Hnd Hlt]. unfold update_expense.
  destruct (update_in_list (expenses st) i a c ds d t) as [[ok l']|] eqn:Hu;
    cbn; [|by split].
  pose proof (update_in_list_ids _ _ _ _ _ _ _ _ _ Hu) as Hids.
  unfold ids in *. split; cbn.
  - by rewrite Hids.
  - apply Forall_forall. intros e He.
    assert (id e ∈ map id (expenses st)) as Hin.
    { rewrite <- Hids. apply list_elem_of_fmap. eauto. }
    apply list_elem_of_fmap in Hin as (e0 & -> & Hin0).
    rewrite Forall_forall in Hlt. by apply Hlt.
Qed.

Lemma NoDup_ids_filter (P : Expense → Prop) `{!∀ e, Decision (P e)} l :
  NoDup (ids l) → NoDup (ids (filter P l)).
Proof.
  induction l as [|e l IH]; [done|].
  change (ids (e :: l)) with (id e :: ids l).
  intros [Hnotin Hnd]%NoDup_cons. rewrite filter_cons.
  destruct (decide (P e)); [|by apply IH].
  change (NoDup (id e :: ids (filter P l))).
  apply NoDup_cons. split; [|by apply IH].
  intros Hin. apply Hnotin.
  apply list_elem_of_fmap in Hin as (e' & -> & Hin).
  apply list_elem_of_filter in Hin as [_ Hin].
  apply list_elem_of_fmap. eauto.
Qed.

Lemma store_inv_delete i st :
  store_inv st → store_inv (snd (delete_expense i st)).
Proof.
  intros [Hnd Hlt]. unfold delete_expense. cbn. split; cbn.
  - by apply NoDup_ids_filter.
  - apply Forall_forall. intros e He. apply list_elem_of_filter in He as [_ He].
    rewrite Forall_forall in Hlt. by apply Hlt.
Qed.

Lemma store_inv_run_op o st : store_inv st → store_inv (run_op o st).
Proof.
  destruct o; cbn;
    [apply store_inv_create | apply store_inv_update | apply store_inv_delete].
Qed.

Lemma store_inv_run_ops ops st : store_inv st → store_inv (run_ops ops st).
Proof.
  revert st. induction ops as [|o ops IH]; intros st Hst; cbn; [done|].
  apply IH. by apply store_inv_run_op.
Qed.

(** The counter never decreases. *)
Lemma next_id_run_op o st : next_id st ≤ next_id (run_op o st).
Proof.
  destruct o as [a c ds d t | i a c ds d t | i]; cbn.
  - unfold create_expense. destruct (fromisoformat ds); cbn; lia.
  - unfold update_expense. destruct (update_in_list _ _ _ _ _ _ _) as [[ok l']|]; cbn; lia.
  - lia.
Qed.

Lemma next_id_run_ops ops : ∀ st, next_id st ≤ next_id (run_ops ops st).
Proof.
  induction ops as [|o ops IH]; intros st; cbn; [lia|].
  etrans; [apply (next_id_run_op o)|apply IH].
Qed.

(** C8. After any sequence of create, update and delete calls on a fresh
    store, the IDs of the live list are pairwise distinct and all below the
    counter. A create that succeeds takes the counter as its ID, which is not
    in the list; and since the counter never decreases, an ID that is live
    now stays below the counter after any further calls, so it is never
    assigned again. *)
Theorem ids_unique_after_ops (ops : list op) :
  let st := run_ops ops initial_store in
  NoDup (ids (expenses st))
  ∧ Forall (fun e => id e < next_id st) (expenses st)
  ∧ (∀ a c ds d t,
      match fst (create_expense a c ds d t st) with
      | Some e => id e = next_id st ∧ id e ∉ ids (expenses st)
      | None => True
      end)
  ∧ ∀ more, Forall (fun e => id e < next_id (run_ops more st)) (expenses st).
Proof.
  intros st.
  destruct (store_inv_run_ops ops initial_store store_inv_initial) as [Hnd Hlt].
  fold st in Hnd, Hlt. split; [exact Hnd|]. split; [exact Hlt|]. split.
  - intros a c ds d t. unfold create_expense.
    destruct (fromisoformat ds) as [dt|]; cbn; [|done].
    split; [reflexivity|].
    intros Hin. apply list_elem_of_fmap in Hin as (e0 & He0 & Hin0).
    rewrite Forall_forall in Hlt. specialize (Hlt e0 Hin0). lia.
  - intros more. pose proof (next_id_run_ops more st) as Hmono.
    eapply Forall_impl; [exact Hlt|]. cbn. intros e He. lia.
Qed.

End Uniqueness.

(** ** Joining and splitting tags *)

Section JoinSplit.
Variable c : ascii.

Lemma split_no_sep (s : string) :
  Str.contains c s = false → Str.split c s = [s].
Proof.
  induction s as [|a s IH]; cbn; [done|].
  intros [Ha Hs]%orb_false_elim. rewrite Ha, (IH Hs). reflexivity.
Qed.

Lemma split_app_sep (s t : string) :
  Str.contains c s = false →
  Str.split c (s +:+ String c t) = s :: Str.split c t.
Proof.
  induction s as [|a s IH].
  - intros _. change ("" +:+ String c t) with (String c t).
    cbn. by rewrite Ascii.eqb_refl.
  - change (String a s +:+ String c t) with (String a (s +:+ String c t)).
    cbn. intros [Ha Hs]%orb_false_elim. rewrite Ha, (IH Hs). reflexivity.
Qed.

Lemma split_join (l : list string) :
  l ≠ [] → Forall (fun t => Str.contains c t = false) l →
  Str.split c (Str.join (String c "") l) = l.
Proof.
  induction l as [|x l IH]; [done|]. intros _ [Hx Hl]%Forall_cons.
  destruct l as [|y l].
  - cbn. by apply split_no_sep.
  - change (Str.join (String c "") (x :: y :: l))
      with (x +:+ String c "" +:+ Str.join (String c "") (y :: l)).
    change (String c "" +:+ Str.join (String c "") (y :: l))
      with (String c (Str.join (String c "") (y :: l))).
    rewrite split_app_sep by exact Hx. f_equal. by apply IH.
Qed.

Lemma join_truthy (l : list string) :
  l ≠ [] → l ≠ [""] → Str.truthy (Str.join (String c "") l) = true.
Proof.
  destruct l as [|x [|y l]]; [done| |].
  - intros _ Hx. cbn. destruct x; [done|reflexivity].
  - intros _ _. cbn [Str.join]. destruct x; reflexivity.
Qed.

End JoinSplit.

(** ** Loading *)

Section Loading.
Context `{PyText}.

Lemma load_row_decode r n :
  load_row r n = match decode_row r with
                 | Some e => Some (e, n + 1)
                 | None => None
                 end.
Proof.
  unfold decode_row, load_row.
  destruct (py_float (r_amount r)); [|done].
  destruct (py_int (r_id r)); [|done].
  destruct (fromisoformat (r_date r)); done.
Qed.

(** When every row decodes, the loop returns the decoded rows after the
    accumulator, the running maximum, and the counter advanced once per row. *)
Lemma load_loop_all rows : ∀ acc m n,
  forallb row_decodes rows = true →
  load_loop rows acc m n =
    (Some (acc ++ omap decode_row rows, foldl Z.max m (ids (omap decode_row rows))),
     n + Z.of_nat (length rows)).
Proof.
  induction rows as [|r rows IH]; intros acc m n Hall.
  - cbn. rewrite app_nil_r, Z.add_0_r. reflexivity.
  - cbn [forallb] in Hall. apply andb_prop in Hall as [Hr Hall].
    cbn [load_loop]. rewrite load_row_decode.
    unfold row_decodes in Hr. cbn [omap list_omap].
    destruct (decode_row r) as [e|]; [|discriminate].
    rewrite IH by exact Hall. rewrite <- app_assoc. cbn [app length].
    f_equal. lia.
Qed.

(** When some row does not decode, the loop raises. *)
Lemma load_loop_raises rows : ∀ acc m n,
  forallb row_decodes rows = false → fst (load_loop rows acc m n) = None.
Proof.
  induction rows as [|r rows IH]; intros acc m n Hall; [discriminate|].
  cbn [forallb] in Hall. cbn [load_loop]. rewrite load_row_decode.
  unfold row_decodes in Hall.
  destruct (decode_row r) as [e|]; [|reflexivity].
  apply IH. exact Hall.
Qed.

(** C5, as the code has it. A load is all or nothing: when every row decodes
    the result is the decoded rows in file order; when one row does not, the
    exception ends the loop and the function returns the empty list. *)
Theorem load_expenses_all_or_nothing (rows : list row) (n : Z) :
  fst (load_expenses (Some rows) n) =
    if forallb row_decodes rows then load_skipping_spec rows else [].
Proof.
  unfold load_expenses, load_skipping_spec.
  destruct (forallb row_decodes rows) eqn:Hall.
  - rewrite load_loop_all by exact Hall. reflexivity.
  - pose proof (load_loop_raises rows [] 0 n Hall) as Hf.
    destruct (load_loop rows [] 0 n) as [[[l m]|] n']; [discriminate|reflexivity].
Qed.

Lemma foldr_max_base l : ∀ m x,
  foldr Z.max (Z.max m x) l = Z.max x (foldr Z.max m l).
Proof. induction l as [|y l IH]; intros m x; cbn; [lia|]. rewrite IH. lia. Qed.

(** The running maximum of the loop is the maximum of the list. *)
Lemma foldl_max_foldr l : ∀ m, foldl Z.max m l = foldr Z.max m l.
Proof.
  induction l as [|x l IH]; intros m; cbn; [done|].
  rewrite IH. apply foldr_max_base.
Qed.

Lemma max_ids_bound l : Forall (fun e => id e ≤ max_ids l) l ∧ 0 ≤ max_ids l.
Proof.
  unfold max_ids, ids. induction l as [|e l [IHl IH0]]; cbn; [split; [constructor|lia]|].
  split; [|lia]. constructor; [lia|].
  eapply Forall_impl; [exact IHl|]. cbn. intros; lia.
Qed.

Lemma max_ids_pos l : l ≠ [] → Forall (fun e => 0 < id e) l → 0 < max_ids l.
Proof.
  destruct l as [|e l]; [done|]. intros _ [He _]%Forall_cons.
  pose proof (max_ids_bound l) as [_ H0]. unfold max_ids, ids in *. cbn. lia.
Qed.


(** From any counter, a load that returns at least one expense leaves the
    counter one past the largest loaded ID. *)
Lemma next_id_after_load_nonempty (rows : list row) (n : Z) :
  forallb row_decodes rows = true → rows ≠ [] →
  Forall (fun e => 0 < id e) (load_skipping_spec rows) →
  snd (load_expenses (Some rows) n) = max_ids (load_skipping_spec rows) + 1.
Proof.
  intros Hall Hne Hpos. unfold load_expenses, load_skipping_spec in *.
  rewrite load_loop_all by exact Hall. cbn [app fst snd].
  rewrite foldl_max_foldr. fold (max_ids (omap decode_row rows)).
  assert (omap decode_row rows ≠ []) as Hne'.
  { destruct rows as [|r rows]; [done|].
    cbn [forallb] in Hall. apply andb_prop in Hall as [Hr _].
    unfold row_decodes in Hr. cbn [omap list_omap].
    destruct (decode_row r); [done|discriminate]. }
  pose proof (max_ids_pos _ Hne' Hpos) as Hm.
  apply Z.ltb_lt in Hm. by rewrite Hm.
Qed.

End Loading.

(** A file of three rows whose second row has the amount [forty-five]:
    skipping would load the two other rows; [load_expenses] returns none. *)
Lemma load_skipping_counterexample :
  load_skipping_spec rows_one_bad = [lunch; coffee]
  ∧ fst (load_expenses (Some rows_one_bad) 1) = []
  ∧ fst (load_expenses (Some rows_one_bad) 1) ≠ load_skipping_spec rows_one_bad.
Proof.
  split; [vm_compute; reflexivity|].
  split; [vm_compute; reflexivity|].
  intros Heq. apply (f_equal length) in Heq. vm_compute in Heq. discriminate.
Qed.


(** After loading the IDs 3, 7 and 9 the next create takes the ID 10. *)
Example create_after_3_7_9 :
  id <$> fst (create_expense 3.5%float "Food" "2025-10-25" "Tea" None
                (startup_load (Some rows_3_7_9) initial_store)) = Some 10.
Proof. vm_compute. reflexivity. Qed.

(** A load that fails keeps what the constructor did to the counter for the
    rows before the failing one. *)
Example load_failure_counter :
  load_expenses (Some rows_one_bad) 1 = ([], 2).
Proof. vm_compute. reflexivity. Qed.

(** ** Round trip through the rows *)

Section RoundTrip.
Context `{PyText}.

(** What decoding does to the tags column written by [encode_row]. *)
Lemma decode_tags (l : list string) :
  Forall (fun t => Str.contains "|" t = false) l → l ≠ [""] →
  tags_or_empty
    (Some (if Str.truthy (Str.join "|" l) then Str.split "|" (Str.join "|" l) else []))
  = l.
Proof.
  intros Hsep Hne. destruct l as [|x l]; [reflexivity|].
  rewrite (join_truthy "|" (x :: l)) by done.
  rewrite (split_join "|" (x :: l)) by done. reflexivity.
Qed.

Lemma decode_encode (e : Expense) :
  text_round_trips e → valid_tags e → decode_row (encode_row e) = Some e.
Proof.
  intros (Hid & Hamt & Hdate) [Hsep Hne].
  unfold decode_row, encode_row, load_row, write_row, to_dict, Expense_init, set_id.
  cbn [r_amount r_id r_date r_tags r_category r_description
       d_id d_amount d_category d_date d_description d_tags].
  rewrite Hamt, Hid, Hdate.
  cbn [amount category date description tags].
  rewrite decode_tags by done. by destruct e.
Qed.

Lemma decode_saved (records : list Expense) :
  Forall text_round_trips records → Forall valid_tags records →
  forallb row_decodes (save_expenses records) = true
  ∧ omap decode_row (save_expenses records) = records.
Proof.
  unfold save_expenses. induction records as [|e l IH]; [done|].
  intros [He Hl]%Forall_cons [Hv Hvl]%Forall_cons.
  destruct (IH Hl Hvl) as [IH1 IH2].
  pose proof (decode_encode e He Hv) as Hd. unfold encode_row in Hd.
  cbn [map forallb omap list_omap]. unfold row_decodes at 1.
  rewrite Hd. cbn. rewrite IH1. split; [reflexivity|]. f_equal. exact IH2.
Qed.

(** C1, as the code has it. Saving then loading gives back the same records,
    field for field and in the same order, for records whose tags contain no
    separator and are not the single empty tag, on an interpreter whose
    conversions give back each ID, amount and date from its text; each such
    record is also the decoding of its own row. Records with no tags come
    back with no tags. *)
Theorem save_load_round_trip (records : list Expense) (n : Z) :
  Forall text_round_trips records → Forall valid_tags records →
  fst (load_expenses (Some (save_expenses records)) n) = records
  ∧ Forall (fun r => decode_row (encode_row r) = Some r) records.
Proof.
  intros Htxt Hval. split.
  - destruct (decode_saved records Htxt Hval) as [Hall Hdec].
    unfold load_expenses. rewrite load_loop_all by exact Hall. cbn. exact Hdec.
  - rewrite Forall_forall in Htxt, Hval. apply Forall_forall.
    intros r Hr. apply decode_encode; auto.
Qed.

End RoundTrip.

(** The expense whose only tag is the empty string: its tags column is the
    empty field, which decodes to no tags. *)
Lemma round_trip_counterexample :
  text_round_trips empty_tag
  ∧ Forall (fun t => Str.contains "|" t = false) (tags empty_tag)
  ∧ r_tags (encode_row empty_tag) = ""
  ∧ (tags <$> decode_row (encode_row empty_tag)) = Some []
  ∧ decode_row (encode_row empty_tag) ≠ Some empty_tag
  ∧ fst (load_expenses (Some (save_expenses [empty_tag])) 1) ≠ [empty_tag].
Proof.
  split; [vm_compute; repeat split|].
  split; [repeat constructor|].
  split; [reflexivity|].
  split; [vm_compute; reflexivity|].
  split.
  - intros Heq. apply (f_equal (fmap tags)) in Heq. vm_compute in Heq. discriminate.
  - intros Heq. apply (f_equal (map tags)) in Heq. vm_compute in Heq. discriminate.
Qed.

(** The sample expenses, one of them without tags, through a save and a
    load. *)
Lemma save_load_round_trip_example :
  Forall text_round_trips [lunch; gas; coffee; bill]
  ∧ Forall valid_tags [lunch; gas; coffee; bill]
  ∧ fst (load_expenses (Some (save_expenses [lunch; gas; coffee; bill])) 1)
    = [lunch; gas; coffee; bill]
  ∧ Forall (fun r => decode_row (encode_row r) = Some r) [lunch; gas; coffee; bill].
Proof.
  assert (Forall text_round_trips [lunch; gas; coffee; bill]) as Htxt.
  { repeat constructor; vm_compute; reflexivity. }
  assert (Forall valid_tags [lunch; gas; coffee; bill]) as Hval.
  { repeat (apply Forall_cons; split); try apply Forall_nil_2;
      (split; [repeat constructor | discriminate]). }
  split; [exact Htxt|]. split; [exact Hval|].
  apply (save_load_round_trip [lunch; gas; coffee; bill] 1 Htxt Hval).
Defined.

(** ** Filtering *)

Lemma category_matches_spec c e :
  category_matches c e = true ↔ Str.lower e.(category) = Str.lower (Str.strip c).
Proof. unfold category_matches. apply String.eqb_eq. Qed.

Lemma tag_matches_spec t e :
  tag_matches t e = true ↔
  ∃ x, x ∈ e.(tags) ∧ Str.lower x = Str.lower (Str.strip t).
Proof.
  unfold tag_matches. rewrite existsb_exists. split.
  - intros (y & Hy & Heq). apply in_map_iff in Hy as (x & <- & Hx).
    apply String.eqb_eq in Heq. exists x. split; [by apply list_elem_of_In|done].
  - intros (x & Hx & Heq). exists (Str.lower x). split.
    + apply in_map. by apply list_elem_of_In.
    + apply String.eqb_eq. done.
Qed.

Lemma filter_expenses_unsupplied category tag l :
  supplied category = false → supplied tag = false →
  filter_expenses category tag l = l.
Proof.
  intros Hc Ht. unfold filter_expenses. rewrite Hc, Ht.
  by destruct category, tag.
Qed.

(** The two comprehensions select by the two tests, one after the other. *)
Lemma filter_expenses_elem category tag l e :
  e ∈ filter_expenses category tag l ↔
  e ∈ l ∧ passes_category category e ∧ passes_tag tag e.
Proof.
  unfold filter_expenses, passes_category, passes_tag.
  destruct category as [c|], tag as [t|];
    try destruct (supplied (Some c)) eqn:Hc;
    try destruct (supplied (Some t)) eqn:Ht;
    rewrite ?list_elem_of_filter, ?Is_true_true,
            ?category_matches_spec, ?tag_matches_spec;
    intuition (try discriminate; auto).
Qed.

(** C7. [filter_expenses] returns the whole list when neither argument is
    supplied (absent, empty or blank); otherwise it returns, in list order,
    exactly the expenses that pass every supplied criterion: the category,
    lower-cased, equals the trimmed, lower-cased argument, and some tag,
    lower-cased, equals the trimmed, lower-cased tag argument. With both
    supplied, both must hold. *)
Theorem filter_expenses_correct (category tag : option string) (l : list Expense) :
  filter_expenses None None l = l
  ∧ (∀ e, e ∈ filter_expenses category tag l ↔
          e ∈ l ∧ passes_category category e ∧ passes_tag tag e)
  ∧ filter_expenses category tag l ⊆+ l
  ∧ sublist (filter_expenses category tag l) l
  ∧ filter_expenses category tag l =
      filter_expenses None tag (filter_expenses category None l).
Proof.
  split; [reflexivity|]. split; [intros e; apply filter_expenses_elem|].
  assert (sublist (filter_expenses category tag l) l) as Hsub.
  { unfold filter_expenses.
    destruct category as [c|], tag as [t|];
      try destruct (supplied (Some c)); try destruct (supplied (Some t));
      try reflexivity; try apply sublist_filter.
    etrans; apply sublist_filter. }
  split; [by apply sublist_submseteq|]. split; [exact Hsub|].
  unfold filter_expenses. by destruct category, tag.
Qed.

(** ["food"] selects the category ["Food"] and not ["Foodie"]; the argument
    is trimmed, the stored category is not. *)
Example filter_food :
  filter_expenses (Some " food ") None
    [lunch; gas; set_category coffee "Foodie"; set_category bill "FOOD"]
  = [lunch; set_category bill "FOOD"]
  ∧ filter_expenses (Some "food") (Some "Work") [lunch; coffee] = [lunch]
  ∧ filter_expenses (Some "  ") None [lunch; gas] = [lunch; gas].
Proof. repeat split; vm_compute; reflexivity. Qed.

(** A blank category argument: no expense has a category equal to it, with
    or without trimming the stored category, and [filter_expenses] returns
    every expense. *)
Lemma filter_blank_argument_counterexample :
  filter_expenses (Some "   ") None [lunch; gas] = [lunch; gas]
  ∧ List.filter (category_equal_trimmed "   ") [lunch; gas] = []
  ∧ List.filter (category_matches "   ") [lunch; gas] = []
  ∧ filter_expenses (Some "") (Some "") [lunch; gas] = [lunch; gas].
Proof. repeat split; vm_compute; reflexivity. Qed.

(** ** The date column *)







(** ** Budgets *)

(** The manual accumulation, from any dictionary: a category already present
    has the amounts added to its value; a new one gets its total. *)
Lemma manual_fold_lookup (l : list Expense) : ∀ (m : gmap string float) (c : string),
  foldl manual_step m l !! c =
    match m !! c with
    | Some v => Some (foldl PrimFloat.add v (amounts_of c l))
    | None => category_total c l
    end.
Proof.
  induction l as [|e l IH]; intros m c.
  - cbn. by destruct (m !! c).
  - cbn [foldl]. rewrite IH. unfold manual_step, category_total, amounts_of.
    cbn [List.filter].
    destruct (String.eqb_spec (category e) c) as [->|Hne].
    + cbn [map]. destruct (m !! c) as [v|] eqn:Hm.
      * rewrite lookup_insert_eq. reflexivity.
      * rewrite lookup_insert_eq. reflexivity.
    + destruct (m !! category e) as [v|] eqn:Hm;
        rewrite lookup_insert_ne by done; reflexivity.
Qed.

Lemma manual_summary_lookup (l : list Expense) (c : string) :
  manual_summary l !! c = category_total c l.
Proof.
  unfold manual_summary. rewrite manual_fold_lookup.
  by rewrite (lookup_empty (M := gmap string) (A := float)).
Qed.

Lemma list_to_map_keys (f : string → float) (ks : list string) (c : string) :
  (list_to_map (map (fun k => (k, f k)) ks) : gmap string float) !! c =
    if decide (c ∈ ks) then Some (f c) else None.
Proof.
  induction ks as [|k ks IH].
  { cbn [map list_to_map foldr].
    rewrite (lookup_empty (M := gmap string) (A := float)).
    rewrite decide_False by apply not_elem_of_nil. reflexivity. }
  cbn [map list_to_map foldr]. destruct (decide (k = c)) as [->|Hne].
  - rewrite lookup_insert_eq. rewrite decide_True by left. reflexivity.
  - rewrite lookup_insert_ne by done. rewrite IH.
    destruct (decide (c ∈ ks)) as [Hin|Hnin].
    + rewrite decide_True by (by right). reflexivity.
    + rewrite decide_False; [reflexivity|].
      intros [Heq|Hin]%elem_of_cons; [by subst|done].
Qed.

Lemma group_amounts_to_dict (c : string) (l : list Expense) :
  group_amounts c (map to_dict l) = amounts_of c l.
Proof.
  unfold group_amounts, amounts_of. induction l as [|e l IH]; [done|].
  cbn [map List.filter]. change (d_category (to_dict e)) with (category e).
  destruct (String.eqb (category e) c); cbn [map]; by rewrite IH.
Qed.

Lemma amounts_of_nil_iff (c : string) (l : list Expense) :
  amounts_of c l = [] ↔ c ∉ map d_category (map to_dict l).
Proof.
  unfold amounts_of. induction l as [|e l IH]; cbn [map List.filter].
  - split; [intros _; apply not_elem_of_nil|done].
  - change (d_category (to_dict e)) with (category e).
    rewrite not_elem_of_cons.
    destruct (String.eqb_spec (category e) c) as [Heq|Hne]; cbn [map].
    + split; [discriminate|]. intros [Hc _]. by subst.
    + rewrite IH. split; [intros Hn; split; [done|exact Hn] | intros [_ Hn]; exact Hn].
Qed.

(** The grouped sum has an entry exactly for the categories that occur, and
    the entry is the column sum of the group. *)
Lemma groupby_sum_lookup (l : list Expense) (c : string) :
  groupby_sum (map to_dict l) !! c =
    match amounts_of c l with
    | [] => None
    | xs => Some (column_sum xs)
    end.
Proof.
  unfold groupby_sum.
  rewrite (list_to_map_keys (fun k => column_sum (group_amounts k (map to_dict l)))).
  rewrite group_amounts_to_dict.
  destruct (decide (c ∈ remove_dups (map d_category (map to_dict l)))) as [Hin|Hnin].
  - rewrite elem_of_remove_dups in Hin.
    destruct (amounts_of c l) eqn:Ha; [|reflexivity].
    by apply amounts_of_nil_iff in Ha.
  - rewrite elem_of_remove_dups in Hnin.
    apply amounts_of_nil_iff in Hnin. by rewrite Hnin.
Qed.



(** The budget loop from any accumulator, over items with distinct keys: the
    result has the entry of every item, keeps the other keys, and the counter
    has advanced once per item over budget. *)
Lemma budget_fold (s : gmap string float) (items : list (string * float)) :
  ∀ (R : gmap string budget_entry) (k : Z),
  NoDup items.*1 →
  (∀ c, fst (foldl (budget_step s) (R, k) items) !! c =
        match (list_to_map items : gmap string float) !! c with
        | Some b => Some (entry_of (default 0%float (s !! c)) b)
        | None => R !! c
        end)
  ∧ snd (foldl (budget_step s) (R, k) items) =
      k + Z.of_nat (length (List.filter
            (fun cb => over_budget (default 0%float (s !! cb.1)) cb.2) items)).
Proof.
  induction items as [|[c0 b0] items IH]; intros R k Hnd.
  { split; [intros c|]; cbn; [|lia].
    by rewrite (lookup_empty (M := gmap string) (A := float)). }
  apply NoDup_cons in Hnd as [Hc0 Hnd]. cbn [foldl budget_step].
  destruct (IH (<[c0 := entry_of (default 0%float (s !! c0)) b0]> R)
               (if over_budget (default 0%float (s !! c0)) b0 then k + 1 else k)
               Hnd) as [IHl IHc].
  split.
  - intros c. etrans; [apply IHl|]. cbn [list_to_map foldr].
    destruct (decide (c0 = c)) as [->|Hne].
    + rewrite (not_elem_of_list_to_map_1 items c) by exact Hc0.
      by rewrite !lookup_insert_eq.
    + by rewrite !lookup_insert_ne by done.
  - etrans; [apply IHc|]. cbn [List.filter fst snd].
    destruct (over_budget (default 0%float (s !! c0)) b0); cbn [length]; lia.
Qed.

Lemma budget_loop_spec (s : gmap string float) (B : gmap string float) :
  (∀ c, fst (budget_loop s (map_to_list B)) !! c =
        entry_of (default 0%float (s !! c)) <$> B !! c)
  ∧ snd (budget_loop s (map_to_list B)) =
      Z.of_nat (length (List.filter
            (fun cb => over_budget (default 0%float (s !! cb.1)) cb.2)
            (map_to_list B))).
Proof.
  destruct (budget_fold s (map_to_list B) ∅ 0 (NoDup_fst_map_to_list B)) as [Hl Hc].
  split; [|exact Hc].
  intros c. unfold budget_loop. rewrite Hl, list_to_map_to_list.
  destruct (B !! c); [reflexivity|].
  by rewrite (lookup_empty (M := gmap string) (A := budget_entry)).
Qed.

(** [check_budgets] past its two guards. *)
Lemma check_budgets_unfold (flag : bool) (l : list Expense) (B : gmap string float) :
  l ≠ [] → B ≠ ∅ →
  check_budgets flag l B =
    let s := if negb flag then manual_summary l else groupby_sum (map to_dict l) in
    mkReport (fst (budget_loop s (map_to_list B)))
             (snd (budget_loop s (map_to_list B))) (Z.of_nat (size B)).
Proof.
  intros Hl HB. unfold check_budgets. destruct l as [|e l]; [done|].
  destruct (Nat.eqb_spec (size B) 0) as [H0|_].
  - by apply map_size_empty_iff in H0.
  - cbv zeta. by destruct (budget_loop _ _).
Qed.



(** Budget 100 for [Food] and 120 spent: 20 over. *)
Example budget_food_over :
  let rep := check_budgets false food_120 {["Food" := 100%float]} in
  budgets rep !! "Food" = Some (mkEntry 100 120 (-20) "Over Budget")
  ∧ over_budget_count rep = 1 ∧ total_budgets rep = 1
  ∧ budgets (check_budgets false [lunch; gas; coffee; bill] default_budgets)
      !! "Shopping" = Some (mkEntry 200 0 200 "Good")
  ∧ check_budgets false [] default_budgets = empty_report.
Proof. repeat split; vm_compute; reflexivity. Qed.

(** ** The two paths *)





(** The totals of the sample data, on either path. *)
Example totals_sample :
  manual_summary [lunch; gas; coffee; bill] !! "Food" = Some 21.25%float
  ∧ groupby_sum (map to_dict [lunch; gas; coffee; bill]) !! "Food" = Some 21.25%float
  ∧ manual_summary [lunch; gas; coffee; bill] !! "Shopping" = None
  ∧ manual_summary [] !! "Food" = None.
Proof. repeat split; vm_compute; reflexivity. Qed.

(** * Further properties of the store *)

(** ** Lookup *)

Lemma get_expense_None l i : get_expense l i = None ↔ i ∉ ids l.
Proof.
  unfold ids. induction l as [|x l IH]; cbn [get_expense map].
  - split; [intros _; apply not_elem_of_nil|done].
  - rewrite not_elem_of_cons. destruct (Z.eqb_spec (id x) i) as [Heq|Hne].
    + split; [discriminate|]. intros [Hi _]. by symmetry in Heq.
    + rewrite IH. split.
      * intros Hn. split; [by intros ->|done].
      * intros [_ Hn]. exact Hn.
Qed.

Lemma get_expense_Some l i e :
  get_expense l i = Some e →
  id e = i ∧ ∃ l1 l2, l = l1 ++ e :: l2 ∧ i ∉ ids l1.
Proof.
  induction l as [|x l IH]; cbn [get_expense]; [discriminate|].
  destruct (Z.eqb_spec (id x) i) as [Heq|Hne].
  - intros [= ->]. split; [done|]. exists [], l. split; [done|apply not_elem_of_nil].
  - intros Hg. destruct (IH Hg) as (Hid & l1 & l2 & -> & Hn).
    split; [done|]. exists (x :: l1), l2. split; [done|].
    unfold ids in *. cbn [map]. rewrite not_elem_of_cons. by split; [intros ->|].
Qed.

(** [get_expense] returns the first expense of the list that has the ID, and
    [None] exactly when no expense has it. *)
Theorem get_expense_first (l : list Expense) (i : Z) :
  match get_expense l i with
  | Some e => id e = i ∧ e ∈ l ∧ ∃ l1 l2, l = l1 ++ e :: l2 ∧ i ∉ ids l1
  | None => i ∉ ids l
  end.
Proof.
  destruct (get_expense l i) as [e|] eqn:Hg.
  - destruct (get_expense_Some l i e Hg) as (Hid & l1 & l2 & Hl & Hn).
    split; [done|]. split; [|by eauto].
    rewrite Hl. apply elem_of_app. right. by left.
  - by apply get_expense_None.
Qed.

Lemma get_expense_app l e j :
  get_expense (l ++ [e]) j =
    match get_expense l j with
    | Some x => Some x
    | None => if id e =? j then Some e else None
    end.
Proof.
  induction l as [|x l IH]; cbn [app get_expense]; [done|].
  destruct (id x =? j); [done|exact IH].
Qed.

(** ** Create, then look up *)

(** A successful [create_expense] on a store whose counter is not the ID of a
    stored expense appends one expense, advances the counter by one, makes the
    new expense the one [get_expense] finds under its ID, and leaves every
    other lookup as it was. *)
Theorem create_expense_then_get `{PyText} (st : store) a c ds d t dt :
  fromisoformat ds = Some dt →
  next_id st ∉ ids (expenses st) →
  let r := create_expense a c ds d t st in
  let e := mkExpense (next_id st) a c dt d (tags_or_empty t) in
  fst r = Some e
  ∧ expenses (snd r) = expenses st ++ [e]
  ∧ next_id (snd r) = next_id st + 1
  ∧ get_expense (expenses (snd r)) (id e) = Some e
  ∧ ∀ j, j ≠ id e → get_expense (expenses (snd r)) j = get_expense (expenses st) j.
Proof.
  intros Hd Hfresh r e. subst r. rewrite (create_expense_success _ _ _ _ _ _ _ Hd).
  fold e. cbn [fst snd expenses next_id]. repeat split.
  - rewrite get_expense_app. apply get_expense_None in Hfresh.
    cbn [id e]. rewrite Hfresh. by rewrite Z.eqb_refl.
  - intros j Hj. rewrite get_expense_app.
    destruct (get_expense (expenses st) j); [done|].
    cbn [id e] in *. destruct (Z.eqb_spec (next_id st) j); [by subst|done].
Qed.

(** A create with an ISO date on the store of two expenses, whose counter 3
    is free. *)
Lemma create_expense_then_get_example :
  fromisoformat "2025-10-25" = Some (oct 25)
  ∧ (next_id two_expenses ∉ ids (expenses two_expenses))
  ∧ let r := create_expense 3.5%float "Food" "2025-10-25" "Tea" None two_expenses in
    let e := mkExpense (next_id two_expenses) 3.5%float "Food" (oct 25) "Tea"
                       (tags_or_empty None) in
    fst r = Some e
    ∧ expenses (snd r) = expenses two_expenses ++ [e]
    ∧ next_id (snd r) = next_id two_expenses + 1
    ∧ get_expense (expenses (snd r)) (id e) = Some e
    ∧ ∀ j, j ≠ id e →
        get_expense (expenses (snd r)) j = get_expense (expenses two_expenses) j.
Proof.
  assert (next_id two_expenses ∉ ids (expenses two_expenses)) as Hfresh.
  { apply get_expense_None. reflexivity. }
  split; [reflexivity|]. split; [exact Hfresh|].
  apply (create_expense_then_get two_expenses 3.5%float "Food" "2025-10-25" "Tea"
           None (oct 25)); [reflexivity|exact Hfresh].
Defined.

(** ** Delete *)

Section Delete.
Variable i : Z.

(** The list comprehension of [delete_expense]. *)
Let kept (l : list Expense) : list Expense :=
  filter (fun e => negb (id e =? i)) l.

Lemma kept_cons x l :
  kept (x :: l) = if id x =? i then kept l else x :: kept l.
Proof.
  unfold kept. rewrite filter_cons.
  destruct (id x =? i); cbn [negb].
  - by rewrite decide_False by (intros []).
  - by rewrite decide_True by exact I.
Qed.

Lemma kept_length l : (length (kept l) ≤ length l)%nat.
Proof.
  induction l as [|x l IH]; [done|]. rewrite kept_cons.
  destruct (id x =? i); cbn [length]; lia.
Qed.

Lemma kept_shorter l : (length (kept l) < length l)%nat ↔ i ∈ ids l.
Proof.
  unfold ids. induction l as [|x l IH].
  - cbn. split; [lia|by intros ?%elem_of_nil].
  - rewrite kept_cons. cbn [map]. rewrite elem_of_cons.
    pose proof (kept_length l) as Hle.
    destruct (Z.eqb_spec (id x) i) as [Heq|Hne]; cbn [length].
    + split; [by left|lia].
    + rewrite <- IH. split; [intros; right; lia|].
      intros [Heq|Hlt]; [by symmetry in Heq|lia].
Qed.

Lemma kept_absent l : i ∉ ids l → kept l = l.
Proof.
  unfold ids. induction l as [|x l IH]; [done|].
  cbn [map]. rewrite not_elem_of_cons. intros [Hne Hn]. rewrite kept_cons.
  destruct (Z.eqb_spec (id x) i) as [Heq|_]; [by symmetry in Heq|].
  by rewrite IH.
Qed.

Lemma kept_ids l : i ∉ ids (kept l).
Proof.
  unfold ids. induction l as [|x l IH]; [apply not_elem_of_nil|].
  rewrite kept_cons. destruct (Z.eqb_spec (id x) i) as [Heq|Hne]; [done|].
  cbn [map]. rewrite not_elem_of_cons. by split; [intros ->|].
Qed.

Lemma kept_get_other l j : j ≠ i → get_expense (kept l) j = get_expense l j.
Proof.
  intros Hj. induction l as [|x l IH]; [done|]. rewrite kept_cons.
  destruct (Z.eqb_spec (id x) i) as [Heq|Hne]; cbn [get_expense].
  - destruct (Z.eqb_spec (id x) j) as [Heq'|_]; [congruence|exact IH].
  - by rewrite IH.
Qed.

(** [delete_expense] returns [True] exactly when some expense has the ID.
    Afterwards no expense has it, every other lookup is as before, and the
    counter is untouched. Deleting an ID that is absent changes nothing, so a
    second delete of the same ID returns [False] and is a no-op. *)
Theorem delete_expense_removes (st : store) :
  let r := delete_expense i st in
  (fst r = true ↔ i ∈ ids (expenses st))
  ∧ (i ∉ ids (expenses (snd r)))
  ∧ get_expense (expenses (snd r)) i = None
  ∧ (∀ j, j ≠ i → get_expense (expenses (snd r)) j = get_expense (expenses st) j)
  ∧ next_id (snd r) = next_id st
  ∧ (i ∉ ids (expenses st) → r = (false, st))
  ∧ delete_expense i (snd r) = (false, snd r).
Proof.
  intros r. subst r. unfold delete_expense.
  cbn [fst snd expenses next_id]. fold (kept (expenses st)).
  assert (∀ l n, i ∉ ids l →
            ((length (kept l) <? length l)%nat, mkStore (kept l) n)
            = (false, mkStore l n)) as Hnoop.
  { intros l n Hn. rewrite (kept_absent l Hn).
    by rewrite Nat.ltb_irrefl. }
  split; [rewrite Nat.ltb_lt; apply kept_shorter|].
  split; [apply kept_ids|].
  split; [apply get_expense_None, kept_ids|].
  split; [intros j Hj; by apply kept_get_other|].
  split; [reflexivity|].
  split.
  - intros Hn. rewrite (Hnoop _ _ Hn). by destruct st.
  - fold (kept (kept (expenses st))). apply Hnoop, kept_ids.
Qed.

End Delete.

(** ** Update *)

Section Update.
Context `{PyText}.

Lemma update_fields_ok e a c ds d t dt :
  date_after_update ds (date e) = Some dt →
  update_fields e a c ds d t =
    (true, mkExpense (id e) (default (amount e) a) (default (category e) c) dt
                     (default (description e) d) (default (tags e) t)).
Proof.
  unfold date_after_update, update_fields. destruct ds as [s|].
  - intros ->. destruct e, a, c, d, t; reflexivity.
  - intros [= <-]. destruct e, a, c, d, t; reflexivity.
Qed.

Lemma update_in_list_not_found l i a c ds d t :
  get_expense l i = None → update_in_list l i a c ds d t = None.
Proof.
  induction l as [|x l IH]; cbn [get_expense update_in_list]; [done|].
  destruct (id x =? i); [discriminate|]. intros Hg. by rewrite IH.
Qed.

(** The mutation reaches the expense [get_expense] returns, and only it. *)
Lemma update_in_list_found l i a c ds d t e :
  get_expense l i = Some e →
  ∃ l', update_in_list l i a c ds d t
          = Some (fst (update_fields e a c ds d t), l')
        ∧ get_expense l' i = Some (snd (update_fields e a c ds d t))
        ∧ ∀ j, j ≠ i → get_expense l' j = get_expense l j.
Proof.
  induction l as [|x l IH]; cbn [get_expense update_in_list]; [discriminate|].
  destruct (Z.eqb_spec (id x) i) as [Heq|Hne].
  - intros [= ->]. pose proof (update_fields_id e a c ds d t) as Hid.
    destruct (update_fields e a c ds d t) as [ok e'] eqn:Hu. cbn [fst snd] in *.
    eexists. split; [reflexivity|]. cbn [get_expense]. rewrite Hid.
    split.
    + destruct (Z.eqb_spec (id e) i); [done|congruence].
    + intros j Hj. destruct (Z.eqb_spec (id e) j); [congruence|done].
  - intros Hg. destruct (IH Hg) as (l' & -> & Hg' & Hother).
    eexists. split; [reflexivity|]. cbn [get_expense].
    destruct (Z.eqb_spec (id x) i); [done|]. split; [exact Hg'|].
    intros j Hj. destruct (id x =? j); [done|by apply Hother].
Qed.

(** [update_expense], case by case. With no expense under the ID it returns
    [False] and the store is the same. With an expense under the ID and a date
    that is absent or parses, it returns [True] and that expense has exactly
    the supplied fields replaced, the others kept. In every case the IDs of
    the list, in order, and the counter are unchanged, and the expenses under
    other IDs are untouched. *)
Theorem update_expense_cases (st : store) i a c ds d t :
  let r := update_expense i a c ds d t st in
  match get_expense (expenses st) i with
  | None => r = (false, st)
  | Some e =>
      match date_after_update ds (date e) with
      | Some dt =>
          fst r = true
          ∧ get_expense (expenses (snd r)) i =
              Some (mkExpense (id e) (default (amount e) a) (default (category e) c)
                              dt (default (description e) d) (default (tags e) t))
      | None => fst r = false
      end
  end
  ∧ ids (expenses (snd r)) = ids (expenses st)
  ∧ next_id (snd r) = next_id st
  ∧ ∀ j, j ≠ i → get_expense (expenses (snd r)) j = get_expense (expenses st) j.
Proof.
  intros r. subst r. unfold update_expense.
  destruct (get_expense (expenses st) i) as [e|] eqn:Hg.
  - destruct (update_in_list_found _ i a c ds d t e Hg) as (l' & Hu & Hg' & Hother).
    rewrite Hu. cbn [fst snd expenses next_id].
    split; [|split; [by eapply update_in_list_ids|by split]].
    destruct (date_after_update ds (date e)) as [dt|] eqn:Hd.
    + rewrite Hg', (update_fields_ok e a c ds d t dt Hd). by split.
    + unfold date_after_update in Hd. destruct ds as [s|]; [|discriminate].
      by rewrite (update_fields_bad_date e a c s d t Hd).
  - rewrite (update_in_list_not_found _ i a c ds d t Hg). by repeat split.
Qed.

End Update.

(** An update of the description of expense 2 only, and an update under an
    ID that no expense has. *)
Example update_description_only :
  update_expense 2 None None None (Some "Petrol") None two_expenses
  = (true, mkStore [lunch; set_description gas "Petrol"] 3)
  ∧ update_expense 7 (Some 1%float) None None None None two_expenses
    = (false, two_expenses).
Proof. split; vm_compute; reflexivity. Qed.

(** ** Loading establishes the store invariant *)

Section StartupInvariant.
Context `{PyText}.

Lemma startup_load_inv (rows : list row) (st : store) :
  NoDup (ids (load_skipping_spec rows)) →
  Forall (fun e => 0 < id e) (load_skipping_spec rows) →
  store_inv (startup_load (Some rows) st).
Proof.
  intros Hnd Hpos. unfold startup_load.
  destruct (forallb row_decodes rows) eqn:Hall.
  - destruct rows as [|r rows].
    + cbn. split; [apply NoDup_nil_2|apply Forall_nil_2].
    + pose proof (next_id_after_load_nonempty (r :: rows) (next_id st) Hall
                    ltac:(done) Hpos) as Hn.
      unfold load_expenses, load_skipping_spec in *.
      rewrite load_loop_all in * by exact Hall. cbn [app fst snd] in *.
      split; cbn [expenses next_id]; [exact Hnd|]. rewrite Hn.
      pose proof (max_ids_bound (omap decode_row (r :: rows))) as [Hb _].
      eapply Forall_impl; [exact Hb|]. cbn. intros; lia.
  - pose proof (load_loop_raises rows [] 0 (next_id st) Hall) as Hf.
    unfold load_expenses.
    destruct (load_loop rows [] 0 (next_id st)) as [[[l m]|] n']; [discriminate|].
    split; [apply NoDup_nil_2|apply Forall_nil_2].
Qed.

(** [load_expenses] takes the IDs from the file without checking them. When
    the IDs of the file are positive and pairwise distinct, the store after a
    load, from any counter, has distinct IDs below the counter, and keeps
    them so through any sequence of create, update and delete calls. *)
Theorem ids_unique_after_load_and_ops (rows : list row) (st : store) (ops : list op) :
  NoDup (ids (load_skipping_spec rows)) →
  Forall (fun e => 0 < id e) (load_skipping_spec rows) →
  let st' := run_ops ops (startup_load (Some rows) st) in
  NoDup (ids (expenses st')) ∧ Forall (fun e => id e < next_id st') (expenses st').
Proof.
  intros Hnd Hpos st'. apply store_inv_run_ops. by apply startup_load_inv.
Qed.

End StartupInvariant.

(** The file with the IDs 3, 7 and 9, then a create, a delete and a create. *)
Lemma ids_unique_after_load_and_ops_example :
  let ops := [OpCreate 3.5%float "Food" "2025-10-25" "Tea" None; OpDelete 7;
              OpCreate 1%float "Other" "2025-10-26" "Stamp" None] in
  NoDup (ids (load_skipping_spec rows_3_7_9))
  ∧ Forall (fun e => 0 < id e) (load_skipping_spec rows_3_7_9)
  ∧ ids (expenses (run_ops ops (startup_load (Some rows_3_7_9) initial_store)))
    = [3; 9; 10; 11]
  ∧ let st' := run_ops ops (startup_load (Some rows_3_7_9) initial_store) in
    NoDup (ids (expenses st')) ∧ Forall (fun e => id e < next_id st') (expenses st').
Proof.
  assert (NoDup (ids (load_skipping_spec rows_3_7_9))) as Hnd.
  { apply (bool_decide_unpack _). vm_compute. reflexivity. }
  assert (Forall (fun e => 0 < id e) (load_skipping_spec rows_3_7_9)) as Hpos.
  { vm_compute. repeat constructor. }
  split; [exact Hnd|]. split; [exact Hpos|]. split; [vm_compute; reflexivity|].
  apply (ids_unique_after_load_and_ops rows_3_7_9 initial_store _ Hnd Hpos).
Defined.

(** A file in which two rows carry the same ID is loaded as it is: both
    expenses are in the list, [get_expense] finds the first, and one delete
    removes both. *)
Example load_duplicate_ids :
  let rows := [ mkRow "1" "12.5" "Food" "2025-10-20" "Lunch" "";
                mkRow "1" "45.0" "Transport" "2025-10-21" "Gas" "" ] in
  let st := startup_load (Some rows) initial_store in
  ids (expenses st) = [1; 1]
  ∧ description <$> get_expense (expenses st) 1 = Some "Lunch"
  ∧ expenses (snd (delete_expense 1 st)) = [].
Proof. repeat split; vm_compute; reflexivity. Qed.

(** ** A loaded file saves to itself *)

Section SplitJoin.
Variable c : ascii.

Lemma split_not_nil (s : string) : Str.split c s ≠ [].
Proof.
  destruct s as [|a s]; cbn; [done|].
  destruct (Ascii.eqb a c); [done|]. by destruct (Str.split c s).
Qed.

Lemma join_cons_char (sep : string) a x xs :
  Str.join sep (String a x :: xs) = String a (Str.join sep (x :: xs)).
Proof. by destruct xs. Qed.

(** Joining what [split] returns gives the text back, whatever the text. *)
Lemma join_split (s : string) : Str.join (String c "") (Str.split c s) = s.
Proof.
  induction s as [|a s IH]; [done|]. cbn [Str.split].
  pose proof (split_not_nil s) as Hne.
  destruct (Ascii.eqb_spec a c) as [->|Hac].
  - destruct (Str.split c s) as [|x xs]; [done|].
    change (Str.join (String c "") ("" :: x :: xs))
      with (String c (Str.join (String c "") (x :: xs))).
    by rewrite IH.
  - destruct (Str.split c s) as [|x xs]; [done|].
    rewrite join_cons_char. by rewrite IH.
Qed.

End SplitJoin.

Section Stable.
Context `{PyText}.

(** Decoding the row of an expense gives an expense that differs at most in
    its tag list, and whose tags join to the same text. *)
Lemma decode_encode_tags (e : Expense) :
  text_round_trips e →
  ∃ t, decode_row (encode_row e) = Some (set_tags e t)
       ∧ Str.join "|" t = Str.join "|" (tags e).
Proof.
  intros (Hid & Hamt & Hdate).
  unfold decode_row, encode_row, load_row, write_row, to_dict, Expense_init, set_id.
  cbn [r_amount r_id r_date r_tags r_category r_description
       d_id d_amount d_category d_date d_description d_tags].
  rewrite Hamt, Hid, Hdate.
  cbn [amount category date description tags].
  eexists. split; [unfold set_tags; reflexivity|].
  destruct (Str.truthy (Str.join "|" (tags e))) eqn:Ht.
  - pose proof (split_not_nil "|" (Str.join "|" (tags e))) as Hne.
    pose proof (join_split "|" (Str.join "|" (tags e))) as Hjs.
    destruct (Str.split "|" (Str.join "|" (tags e))); [done|exact Hjs].
  - cbn [tags_or_empty]. by destruct (Str.join "|" (tags e)).
Qed.

Lemma text_round_trips_set_tags (e : Expense) t :
  text_round_trips e → text_round_trips (set_tags e t).
Proof. by intros (? & ? & ?). Qed.

(** Saving what was loaded from a saved file writes the same file, also when
    tags contain the separator or are empty strings (cases in which the
    loaded tag lists differ from the saved ones); and the loaded expenses
    have the IDs, amounts, categories, dates and descriptions that were
    saved, in the same order. *)
Theorem save_load_save (records : list Expense) (n : Z) :
  Forall text_round_trips records →
  let loaded := fst (load_expenses (Some (save_expenses records)) n) in
  save_expenses loaded = save_expenses records
  ∧ map (fun e => set_tags e []) loaded = map (fun e => set_tags e []) records
  ∧ Forall text_round_trips loaded.
Proof.
  intros Htxt loaded. subst loaded.
  assert (∃ l, forallb row_decodes (save_expenses records) = true
               ∧ omap decode_row (save_expenses records) = l
               ∧ save_expenses l = save_expenses records
               ∧ map (fun e => set_tags e []) l = map (fun e => set_tags e []) records
               ∧ Forall text_round_trips l) as (l & Hall & Hdec & Hsave & Hmap & Hrt).
  { unfold save_expenses. induction records as [|e rs IH].
    - exists []. by repeat split.
    - apply Forall_cons in Htxt as [He Hrs].
      destruct (IH Hrs) as (l & Hall & Hdec & Hsave & Hmap & Hrt).
      destruct (decode_encode_tags e He) as (t & Hd & Hj). unfold encode_row in Hd.
      exists (set_tags e t :: l). cbn [map forallb omap list_omap].
      unfold row_decodes at 1. rewrite Hd, Hall, Hdec. cbn [andb map].
      split; [done|]. split; [done|]. split; [|split].
      + f_equal; [|exact Hsave]. unfold write_row, to_dict, set_tags.
        cbn [d_id d_amount d_category d_date d_description d_tags
             id amount category date description tags]. by rewrite Hj.
      + by f_equal.
      + constructor; [by apply text_round_trips_set_tags|exact Hrt]. }
  unfold load_expenses. rewrite load_loop_all by exact Hall.
  cbn [app fst]. rewrite Hdec. by repeat split.
Qed.

End Stable.

(** An expense with the tag [car|fuel] and one whose only tag is empty: the
    loaded tags are [car], [fuel], [trip] and none, and the file is the
    same. *)
Lemma save_load_save_example :
  Forall text_round_trips [piped_tag; empty_tag]
  ∧ map tags (fst (load_expenses (Some (save_expenses [piped_tag; empty_tag])) 1))
    = [["car"; "fuel"; "trip"]; []]
  ∧ let loaded := fst (load_expenses (Some (save_expenses [piped_tag; empty_tag])) 1) in
    save_expenses loaded = save_expenses [piped_tag; empty_tag]
    ∧ map (fun e => set_tags e []) loaded
      = map (fun e => set_tags e []) [piped_tag; empty_tag]
    ∧ Forall text_round_trips loaded.
Proof.
  assert (Forall text_round_trips [piped_tag; empty_tag]) as Htxt.
  { repeat constructor; vm_compute; reflexivity. }
  split; [exact Htxt|]. split; [vm_compute; reflexivity|].
  apply (save_load_save [piped_tag; empty_tag] 1 Htxt).
Defined.

(** * Further properties of the budget report *)

(** Whatever the expenses, the budgets and the path, the report counts at
    most as many categories over budget as it has budget lines, it has at
    most as many lines as there are budgets, and it has no entry for a
    category without a budget: spending in such a category is left out of
    the report. *)
Theorem check_budgets_bounds (flag : bool) (l : list Expense) (B : gmap string float) :
  let rep := check_budgets flag l B in
  0 ≤ over_budget_count rep ≤ total_budgets rep
  ∧ total_budgets rep ≤ Z.of_nat (size B)
  ∧ ∀ c, B !! c = None → budgets rep !! c = None.
Proof.
  intros rep. subst rep.
  destruct (decide (l = [])) as [->|Hl].
  { cbn. split; [lia|]. split; [lia|]. intros c _.
    by rewrite (lookup_empty (M := gmap string) (A := budget_entry)). }
  destruct (decide (size B = 0%nat)) as [H0|HB].
  { unfold check_budgets. destruct l; [done|]. rewrite H0. cbn.
    split; [lia|]. split; [lia|]. intros c _.
    by rewrite (lookup_empty (M := gmap string) (A := budget_entry)). }
  rewrite check_budgets_unfold by (try done; by rewrite <- map_size_empty_iff).
  cbv zeta. cbn [budgets over_budget_count total_budgets].
  set (s := if negb flag then manual_summary l else groupby_sum (map to_dict l)).
  destruct (budget_loop_spec s B) as [Hlook Hcnt].
  split; [|split; [lia|]].
  - rewrite Hcnt, <- (length_map_to_list B).
    pose proof (filter_length_le
      (fun cb : string * float => over_budget (default 0%float (s !! cb.1)) cb.2)
      (map_to_list B)). lia.
  - intros c Hc. by rewrite Hlook, Hc.
Qed.

(** On both paths the per-category totals have an entry exactly for the
    categories that occur among the expenses, compared as exact strings: no
    expenses, no entries; and [food] and [Food] are two categories. *)
Theorem summary_keys (l : list Expense) (c : string) :
  (manual_summary l !! c = None ↔ c ∉ map category l)
  ∧ (groupby_sum (map to_dict l) !! c = None ↔ c ∉ map category l)
  ∧ manual_summary [] = ∅.
Proof.
  assert (map d_category (map to_dict l) = map category l) as Hcat.
  { induction l as [|e l IH]; [done|]. cbn [map]. by rewrite IH. }
  rewrite manual_summary_lookup, groupby_sum_lookup, <- Hcat, <- amounts_of_nil_iff.
  unfold category_total.
  split; [|split; [|reflexivity]]; by destruct (amounts_of c l).
Qed.

(** Lower-case [food] is not counted against the budget of [Food]. *)
Example budget_case_sensitive :
  let l := [set_category lunch "food"] in
  manual_summary l !! "Food" = None
  ∧ spent <$> budgets (check_budgets false l {["Food" := 100%float]}) !! "Food"
    = Some 0%float.
Proof. split; vm_compute; reflexivity. Qed.

(** * The command-line interface *)

(** ** Stripping *)

Lemma lstrip_head (s : string) :
  match Str.lstrip s with
  | EmptyString => True
  | String a _ => Str.is_space a = false
  end.
Proof.
  induction s as [|a s IH]; cbn [Str.lstrip]; [done|].
  destruct (Str.is_space a) eqn:Ha; [exact IH|exact Ha].
Qed.

Lemma rstrip_cons a s :
  Str.rstrip (String a s) =
    match Str.rstrip s with
    | EmptyString => if Str.is_space a then "" else String a ""
    | t => String a t
    end.
Proof. reflexivity. Qed.

Lemma rstrip_idemp (s : string) : Str.rstrip (Str.rstrip s) = Str.rstrip s.
Proof.
  induction s as [|a s IH]; [done|]. rewrite rstrip_cons.
  destruct (Str.rstrip s) as [|b t] eqn:Hr.
  - destruct (Str.is_space a) eqn:Ha; [done|]. cbn [Str.rstrip]. by rewrite Ha.
  - rewrite rstrip_cons. by rewrite IH.
Qed.

Lemma rstrip_head a s :
  Str.is_space a = false → ∃ t, Str.rstrip (String a s) = String a t.
Proof.
  intros Ha. cbn [Str.rstrip]. destruct (Str.rstrip s); [rewrite Ha|]; eauto.
Qed.

(** A stripped string starts with no white space (and is its own strip). *)
Lemma strip_idemp (s : string) : Str.strip (Str.strip s) = Str.strip s.
Proof.
  unfold Str.strip. pose proof (lstrip_head s) as Hh.
  destruct (Str.lstrip s) as [|a u]; [done|].
  destruct (rstrip_head a u Hh) as (t & Ht). rewrite Ht.
  cbn [Str.lstrip]. rewrite Hh, <- Ht. apply rstrip_idemp.
Qed.

Lemma contains_lstrip c s :
  Str.contains c s = false → Str.contains c (Str.lstrip s) = false.
Proof.
  induction s as [|a s IH]; [done|]. cbn [Str.lstrip].
  destruct (Str.is_space a); [|done].
  cbn [Str.contains]. intros [_ Hs]%orb_false_elim. by apply IH.
Qed.

Lemma contains_rstrip c s :
  Str.contains c s = false → Str.contains c (Str.rstrip s) = false.
Proof.
  induction s as [|a s IH]; [done|]. cbn [Str.contains Str.rstrip].
  intros [Ha Hs]%orb_false_elim. specialize (IH Hs).
  destruct (Str.rstrip s) as [|b t].
  - destruct (Str.is_space a); [done|]. cbn. by rewrite Ha.
  - cbn [Str.contains] in *. by rewrite Ha, IH.
Qed.

Lemma contains_strip c s :
  Str.contains c s = false → Str.contains c (Str.strip s) = false.
Proof. intros Hs. by apply contains_rstrip, contains_lstrip. Qed.

(** The pieces [split] returns do not contain the separator, and a character
    that is not in the text is in none of them. *)
Lemma split_pieces c c' s :
  (c' = c ∨ Str.contains c' s = false) →
  Forall (fun t => Str.contains c' t = false) (Str.split c s).
Proof.
  induction s as [|a s IH]; cbn [Str.split Str.contains]; intros Hc.
  { by constructor. }
  assert (c' = c ∨ Str.contains c' s = false) as Hc'.
  { destruct Hc as [->|[_ ?]%orb_false_elim]; [by left|by right]. }
  specialize (IH Hc').
  destruct (Ascii.eqb_spec a c) as [->|Hac]; [by constructor|].
  assert (Ascii.eqb a c' = false) as Hac'.
  { destruct Hc as [->|[? _]%orb_false_elim]; [|done]. by apply Ascii.eqb_neq. }
  destruct (Str.split c s) as [|x xs]; [by repeat constructor; cbn; rewrite Hac'|].
  apply Forall_cons in IH as [Hx Hxs].
  constructor; [|done]. cbn. by rewrite Hac', Hx.
Qed.

(** ** Tags typed at the prompt *)

(** Every tag made from the comma-separated answer is non-empty, has no
    white space at either end, and contains no comma; the list is never the
    single empty tag, and a blank answer gives no tags. When the answer has no
    [|], the tags are valid for the round trip through the file. *)
Theorem cli_tags_clean (tags_str : string) :
  Forall (fun t => t ≠ "" ∧ Str.strip t = t ∧ Str.contains "," t = false)
         (cli_tags tags_str)
  ∧ cli_tags tags_str ≠ [""]
  ∧ (Str.strip tags_str = "" → Str.contains "," tags_str = false →
     cli_tags tags_str = [])
  ∧ (Str.contains "|" tags_str = false →
     ∀ i a c d ds, valid_tags (mkExpense i a c d ds (cli_tags tags_str))).
Proof.
  assert (∀ c', (c' = ","%char ∨ Str.contains c' tags_str = false) →
            Forall (fun t => t ≠ "" ∧ Str.strip t = t ∧ Str.contains c' t = false)
                   (cli_tags tags_str)) as Hclean.
  { intros c' Hc'. unfold cli_tags.
    pose proof (split_pieces "," c' tags_str Hc') as Hp.
    induction Hp as [|t ts Ht Hts IH]; [constructor|].
    cbn [List.filter]. destruct (Str.truthy (Str.strip t)) eqn:Htr; [|exact IH].
    cbn [map]. constructor; [|exact IH]. split; [|split].
    - intros Heq. by rewrite Heq in Htr.
    - apply strip_idemp.
    - by apply contains_strip. }
  pose proof (Hclean ","%char ltac:(by left)) as Hcomma.
  split; [exact Hcomma|]. split; [|split].
  - intros Heq. rewrite Heq in Hcomma. apply Forall_cons in Hcomma as [[Hne _] _]. done.
  - intros Hblank Hnc. unfold cli_tags.
    rewrite (split_no_sep "," tags_str Hnc). cbn [List.filter].
    by rewrite Hblank.
  - intros Hpipe i a c d ds. pose proof (Hclean "|"%char ltac:(by right)) as Hp.
    split; cbn [tags].
    + eapply Forall_impl; [exact Hp|]. by intros t (_ & _ & ?).
    + intros Heq. rewrite Heq in Hp. apply Forall_cons in Hp as [[Hne _] _]. done.
Qed.

(** The answer [" work, , travel ,"] gives the tags [work] and [travel]. *)
Example cli_tags_example :
  cli_tags " work, , travel ," = ["work"; "travel"] ∧ cli_tags "  " = [].
Proof. split; vm_compute; reflexivity. Qed.

(** ** The filter of the menu *)

Lemma truthy_strip (s : string) : Str.truthy (Str.strip s) = true → Str.truthy s = true.
Proof. by destruct s. Qed.

Lemma supplied_raw (s : string) : supplied (Some s) = Str.truthy (Str.strip s).
Proof.
  cbn [supplied]. destruct (Str.truthy (Str.strip s)) eqn:Hs.
  - by rewrite (truthy_strip s Hs).
  - apply andb_false_r.
Qed.

(** The list shown by choice 3 of the menu is what [filter_expenses] returns
    for the two answers as typed: stripping them first and special-casing the
    blank answers changes nothing, so the menu and the HTTP endpoint, which
    passes the query texts as they are, select the same expenses. *)
Theorem cli_filter_is_filter_expenses `{PyText} (category_filter tag_filter : string)
    (l : list Expense) :
  cli_filter category_filter tag_filter l
  = filter_expenses (Some category_filter) (Some tag_filter) l.
Proof.
  unfold cli_filter, filter_expenses.
  rewrite !supplied_raw.
  destruct (Str.truthy (Str.strip category_filter)) eqn:Hc;
    destruct (Str.truthy (Str.strip tag_filter)) eqn:Ht; cbn [negb andb];
    rewrite ?supplied_raw, ?strip_idemp, ?Hc, ?Ht;
    unfold category_matches, tag_matches; rewrite ?strip_idemp; reflexivity.
Qed.

(** ** Start-up and the sample data *)

Section CliStore.
Context `{PyText}.









End CliStore.


(** ** What reaches the file *)

Section CliDisk.
Context `{PyText}.

Lemma cli_loop_disk (file : option (list row)) (cmds : list cli_command) : ∀ s,
  cli_running s = true → cli_disk s = file →
  let s' := cli_loop cmds s in
  (cli_running s' = true → cli_disk s' = file)
  ∧ (cli_running s' = false →
     cli_disk s' = Some (save_expenses (expenses (cli_store s'))))
  ∧ (CliSaveExit ∉ cmds → cli_running s' = true).
Proof.
  induction cmds as [|cmd cmds IH]; intros s Hrun Hdisk; cbn [cli_loop].
  { split; [done|]. split; [by rewrite Hrun|done]. }
  assert (cmd = CliSaveExit
          ∨ (cmd ≠ CliSaveExit ∧ cli_running (cli_step cmd s) = true
             ∧ cli_disk (cli_step cmd s) = file)) as [->|(Hcmd & Hrun' & Hdisk')].
  { destruct cmd as [a c ds d t| | cf tf | | it | | ch];
      first [by left | by right]. }
  - cbn [cli_step cli_running cli_disk cli_store].
    split; [done|]. split; [done|]. intros Hn. exfalso. apply Hn. by left.
  - rewrite Hrun'. destruct (IH _ Hrun' Hdisk') as (H1 & H2 & H3).
    split; [exact H1|]. split; [exact H2|].
    intros Hn. apply H3. intros Hin. apply Hn. by right.
Qed.

(** [run_cli] writes the data file only at choice 6. A session that reaches
    choice 6 leaves in the file the rows of the expenses then in the store; a
    session whose input ends before leaves the file as it found it, so what
    was added or deleted is not saved; and a session in which choice 6 is
    never typed does not reach it. *)
Theorem run_cli_saves_at_exit (file : option (list row)) (cmds : list cli_command)
    (st : store) :
  let s := run_cli file cmds st in
  (cli_running s = true → cli_disk s = file)
  ∧ (cli_running s = false →
     cli_disk s = Some (save_expenses (expenses (cli_store s))))
  ∧ (CliSaveExit ∉ cmds → cli_running s = true).
Proof. intros s. subst s. unfold run_cli. by apply cli_loop_disk. Qed.

(** When the load returns nothing (no file, an empty file, or a file in which
    one row does not decode), [run_cli] starts from the sample data; if the
    user then leaves with choice 6, the file is replaced by the rows of the
    five sample expenses, whatever it held. *)
Theorem run_cli_replaces_unloaded_file (file : option (list row))
    (more : list cli_command) (st : store) :
  fst (load_expenses file (next_id st)) = [] →
  let s := run_cli file (CliSaveExit :: more) st in
  let n := snd (load_expenses file (next_id st)) in
  cli_disk s = Some (save_expenses (fst (sample_expenses n)))
  ∧ expenses (cli_store s) = fst (sample_expenses n)
  ∧ length (expenses (cli_store s)) = 5%nat.
Proof.
  intros Hload s n. subst s n. unfold run_cli, cli_startup, startup_load.
  destruct (load_expenses file (next_id st)) as [l n] eqn:Hl. cbn [fst snd] in *.
  subst l. cbn [expenses cli_loop cli_step cli_running cli_disk cli_store].
  unfold initialize_sample_data. cbn [next_id expenses app].
  unfold sample_expenses, Expense_init. cbn [fst snd expenses length]. done.
Qed.

End CliDisk.

(** The file with one bad row: after start-up and choice 6 it holds the five
    sample rows, numbered from the counter the failed load left. *)
Lemma run_cli_replaces_unloaded_file_example :
  fst (load_expenses (Some rows_one_bad) (next_id initial_store)) = []
  ∧ map r_id <$> cli_disk (run_cli (Some rows_one_bad) [CliSaveExit] initial_store)
    = Some ["2"; "3"; "4"; "5"; "6"]
  ∧ let s := run_cli (Some rows_one_bad) [CliSaveExit] initial_store in
    let n := snd (load_expenses (Some rows_one_bad) (next_id initial_store)) in
    cli_disk s = Some (save_expenses (fst (sample_expenses n)))
    ∧ expenses (cli_store s) = fst (sample_expenses n)
    ∧ length (expenses (cli_store s)) = 5%nat.
Proof.
  split; [vm_compute; reflexivity|]. split; [vm_compute; reflexivity|].
  apply (run_cli_replaces_unloaded_file (Some rows_one_bad) [] initial_store).
  vm_compute. reflexivity.
Defined.

(** * The HTTP API *)

Section ApiProperties.
Context `{PyText}.
Variable pandas_available : bool.


(** No handler assigns the list of [api.py]. *)
Lemma handle_api_expenses rq s :
  api_expenses (snd (handle pandas_available rq s)) = api_expenses s.
Proof.
  destruct rq as [|i|data|i data|i|c t|]; cbn [handle].
  - done.
  - by destruct (get_expense _ _).
  - by destruct (create_expense _ _ _ _ _ _) as [[e|] st].
  - destruct (update_expense _ _ _ _ _ _ _) as [[|] st]; [|done].
    by destruct (get_expense _ _).
  - by destruct (delete_expense _ _) as [[|] st].
  - done.
  - destruct (negb pandas_available); [done|].
    destruct (api_expenses s) eqn:E; cbn [snd]; exact E.
Qed.


Lemma serve_api_expenses rqs : ∀ s,
  api_expenses (serve pandas_available rqs s) = api_expenses s.
Proof.
  induction rqs as [|rq rqs IH]; intros s; cbn; [done|].
  unfold serve in IH. rewrite IH. apply handle_api_expenses.
Qed.

(** [get_spending_summary] reads the list of [api.py], which nothing ever
    fills: after start-up on any file and any sequence of requests, the
    endpoint answers with the empty summary and total 0.0 (or fails with
    status 500 when pandas cannot be imported), whatever the expenses in the
    store. *)
Theorem spending_summary_always_empty (file : option (list row)) (rqs : list request) :
  fst (handle pandas_available GetSpendingSummary
         (serve pandas_available rqs (api_startup file)))
  = if pandas_available then SpendingSummary ∅ 0%float None else HTTPException 500.
Proof.
  cbn [handle]. rewrite serve_api_expenses. cbn [api_startup api_expenses].
  by destruct pandas_available.
Qed.


End ApiProperties.

Section ApiErrors.
Context `{PyText}.
Variable pandas_available : bool.

(** When each endpoint raises: the lookup and the delete exactly when no
    expense has the ID (404); the create exactly when the date does not parse
    (400); the update when no expense has the ID or when the date is supplied
    and does not parse (404 in both cases). *)
Theorem handle_raises (i : Z) (c : ExpenseCreate) (u : ExpenseUpdate) (s : api_state) :
  let l := expenses (app_store s) in
  (fst (handle pandas_available (GetExpenseById i) s) = HTTPException 404 ↔ i ∉ ids l)
  ∧ (fst (handle pandas_available (DeleteExistingExpense i) s) = HTTPException 404
     ↔ i ∉ ids l)
  ∧ (fst (handle pandas_available (CreateNewExpense c) s) = HTTPException 400
     ↔ fromisoformat (ec_date c) = None)
  ∧ (fst (handle pandas_available (UpdateExistingExpense i u) s) = HTTPException 404
     ↔ match get_expense l i with
       | None => True
       | Some e => date_after_update (eu_date u) (date e) = None
       end).
Proof.
  intros l. subst l. cbn [handle]. split; [|split; [|split]].
  - rewrite <- get_expense_None. by destruct (get_expense _ _).
  - unfold delete_expense. cbn [fst].
    pose proof (kept_shorter i (expenses (app_store s))) as Hk.
    destruct (Nat.ltb_spec
                (length (filter (fun e => negb (id e =? i)) (expenses (app_store s))))
                (length (expenses (app_store s)))) as [Hlt|Hge]; cbn [fst].
    + split; [discriminate|]. intros Hn. by apply Hk in Hlt.
    + split; [intros _|done]. intros Hin. apply Hk in Hin. lia.
  - unfold create_expense. destruct (fromisoformat (ec_date c)); by cbn.
  - unfold update_expense.
    destruct (get_expense (expenses (app_store s)) i) as [e|] eqn:Hg.
    + destruct (update_in_list_found _ i (eu_amount u) (eu_category u) (eu_date u)
                  (eu_description u) (eu_tags u) e Hg) as (l' & -> & Hg' & _).
      destruct (date_after_update (eu_date u) (date e)) as [dt|] eqn:Hd.
      * rewrite (update_fields_ok e _ _ _ _ _ dt Hd) in *. cbn [fst snd expenses] in *.
        rewrite Hg'. by cbn.
      * unfold date_after_update in Hd. destruct (eu_date u) as [txt|]; [|discriminate].
        by rewrite (update_fields_bad_date e _ _ txt _ _ Hd).
    + by rewrite (update_in_list_not_found _ i _ _ _ _ _ Hg).
Qed.

(** An update whose date does not parse answers 404 and writes nothing, yet
    the expense exists and has been modified in memory: a lookup right after
    shows the new amount and category, which the data file does not have. *)
Theorem update_bad_date_answers_404 (i : Z) (u : ExpenseUpdate) (txt : string)
    (e : Expense) (s : api_state) :
  get_expense (expenses (app_store s)) i = Some e →
  eu_date u = Some txt → fromisoformat txt = None →
  let r := handle pandas_available (UpdateExistingExpense i u) s in
  fst r = HTTPException 404
  ∧ data_file (snd r) = data_file s
  ∧ fst (handle pandas_available (GetExpenseById i) (snd r))
    = OneExpense 200
        (response_of (mkExpense (id e) (default (amount e) (eu_amount u))
                        (default (category e) (eu_category u))
                        (date e) (description e) (tags e))).
Proof.
  intros Hg Hu Htxt r. subst r. cbn [handle]. unfold update_expense. rewrite Hu.
  destruct (update_in_list_bad_date (expenses (app_store s)) i (eu_amount u)
              (eu_category u) txt (eu_description u) (eu_tags u) e Htxt Hg)
    as (l' & -> & Hg' & _).
  cbn [fst snd app_store expenses data_file]. by rewrite Hg'.
Qed.

End ApiErrors.

(** The update of expense 1 with amount 99.0 and a day-first date, on a
    server whose file holds the two sample expenses. *)
Lemma update_bad_date_answers_404_example :
  let s := mkApi two_expenses (Some (save_expenses (expenses two_expenses))) [] in
  let u := mkUpdate (Some 99%float) None (Some "20/10/2025") None None in
  get_expense (expenses (app_store s)) 1 = Some lunch
  ∧ eu_date u = Some "20/10/2025" ∧ fromisoformat "20/10/2025" = None
  ∧ let r := handle true (UpdateExistingExpense 1 u) s in
    fst r = HTTPException 404
    ∧ data_file (snd r) = data_file s
    ∧ fst (handle true (GetExpenseById 1) (snd r))
      = OneExpense 200
          (response_of (mkExpense (id lunch) (default (amount lunch) (eu_amount u))
                          (default (category lunch) (eu_category u))
                          (date lunch) (description lunch) (tags lunch))).
Proof.
  split; [reflexivity|]. split; [reflexivity|]. split; [reflexivity|].
  apply (update_bad_date_answers_404 true 1
           (mkUpdate (Some 99%float) None (Some "20/10/2025") None None)
           "20/10/2025" lunch); reflexivity.
Defined.

(** * Restart *)

Section Restart.
Context `{PyText}.

(** Loading, in a fresh process, the file that [save_expenses] wrote for a
    store gives back the same expenses, and a counter one past the largest
    live ID. That counter is at most the one the store had: the IDs of
    expenses that were deleted after being the latest created are handed out
    again after a restart. *)
Theorem restart_restores (st : store) :
  Forall text_round_trips (expenses st) → Forall valid_tags (expenses st) →
  Forall (fun e => 0 < id e) (expenses st) →
  Forall (fun e => id e < next_id st) (expenses st) → 1 ≤ next_id st →
  let st' := startup_load (Some (save_expenses (expenses st))) initial_store in
  expenses st' = expenses st
  ∧ next_id st' = max_ids (expenses st) + 1
  ∧ next_id st' ≤ next_id st.
Proof.
  intros Htxt Hval Hpos Hlt H1 st'. subst st'.
  destruct (decode_saved (expenses st) Htxt Hval) as [Hall Hdec].
  unfold startup_load, load_expenses.
  rewrite load_loop_all by exact Hall. cbn [app fst snd initial_store next_id].
  rewrite foldl_max_foldr, Hdec. fold (max_ids (expenses st)).
  assert (max_ids (expenses st) + 1 ≤ next_id st) as Hle.
  { unfold max_ids, ids. clear -Hlt H1.
    induction Hlt as [|e l He Hl IH]; cbn [map foldr]; lia. }
  destruct (0 <? max_ids (expenses st)) eqn:Hm; cbn [expenses next_id].
  - by repeat split.
  - apply Z.ltb_ge in Hm. pose proof (max_ids_bound (expenses st)) as [_ H0].
    assert (max_ids (expenses st) = 0) as Hz by lia.
    destruct (expenses st) as [|e l] eqn:He.
    + cbn [save_expenses map length]. rewrite Hz. split; [done|]. split; lia.
    + pose proof (max_ids_pos (e :: l) ltac:(done) Hpos). lia.
Qed.

End Restart.

(** Three creates, the last expense deleted, a restart, a create: the new
    expense takes the ID 3 that the deleted one had. *)
Lemma restart_restores_example :
  let st := after_delete_of_latest in
  run_ops [OpCreate 1%float "Food" "2025-10-20" "a" None;
           OpCreate 2%float "Food" "2025-10-21" "b" None;
           OpCreate 3%float "Food" "2025-10-22" "c" None; OpDelete 3]
          initial_store = st
  ∧ Forall text_round_trips (expenses st) ∧ Forall valid_tags (expenses st)
  ∧ Forall (fun e => 0 < id e) (expenses st)
  ∧ Forall (fun e => id e < next_id st) (expenses st) ∧ 1 ≤ next_id st
  ∧ id <$> fst (create_expense 4%float "Food" "2025-10-23" "d" None
                  (startup_load (Some (save_expenses (expenses st))) initial_store))
    = Some 3
  ∧ let st' := startup_load (Some (save_expenses (expenses st))) initial_store in
    expenses st' = expenses st
    ∧ next_id st' = max_ids (expenses st) + 1
    ∧ next_id st' ≤ next_id st.
Proof.
  cbv zeta.
  assert (Forall text_round_trips (expenses after_delete_of_latest)) as Htxt.
  { repeat constructor; vm_compute; reflexivity. }
  assert (Forall valid_tags (expenses after_delete_of_latest)) as Hval.
  { repeat constructor; discriminate. }
  assert (Forall (fun e => 0 < id e) (expenses after_delete_of_latest)) as Hpos.
  { repeat constructor. }
  assert (Forall (fun e => id e < next_id after_delete_of_latest)
                 (expenses after_delete_of_latest)) as Hlt.
  { repeat constructor. }
  assert (1 ≤ next_id after_delete_of_latest) as H1 by discriminate.
  split; [vm_compute; reflexivity|].
  split; [exact Htxt|]. split; [exact Hval|]. split; [exact Hpos|].
  split; [exact Hlt|]. split; [exact H1|].
  split; [vm_compute; reflexivity|].
  apply (restart_restores after_delete_of_latest Htxt Hval Hpos Hlt H1).
Defined.

(** * A load that fails *)

Section FailedLoad.
Context `{PyText}.

Lemma load_loop_raises_counter rows : ∀ acc m n,
  forallb row_decodes rows = false →
  load_loop rows acc m n = (None, n + Z.of_nat (leading_decodable rows)).
Proof.
  induction rows as [|r rows IH]; intros acc m n Hall; [discriminate|].
  cbn [forallb] in Hall. cbn [load_loop leading_decodable]. rewrite load_row_decode.
  unfold row_decodes in *.
  destruct (decode_row r) as [e|].
  - rewrite IH by exact Hall. f_equal. lia.
  - f_equal. cbn. lia.
Qed.

(** A load in which some row does not decode returns the empty list but does
    not leave the counter as it was: the constructor has run for every row
    before the first bad one, so the counter has advanced by their number and
    those IDs are skipped by the creates that follow. *)
Theorem load_expenses_failure_counter (rows : list row) (n : Z) :
  forallb row_decodes rows = false →
  load_expenses (Some rows) n = ([], n + Z.of_nat (leading_decodable rows))
  ∧ (leading_decodable rows < length rows)%nat.
Proof.
  intros Hall. split.
  - unfold load_expenses. by rewrite load_loop_raises_counter.
  - clear n. induction rows as [|r rows IH]; [discriminate|].
    cbn [forallb leading_decodable length] in *.
    destruct (row_decodes r); [|lia]. specialize (IH Hall). lia.
Qed.

End FailedLoad.

(** The file whose second row is bad: one constructor call before the
    failure, so the counter goes from 1 to 2. *)
Lemma load_expenses_failure_counter_example :
  forallb row_decodes rows_one_bad = false
  ∧ load_expenses (Some rows_one_bad) 1
    = ([], 1 + Z.of_nat (leading_decodable rows_one_bad))
  ∧ (leading_decodable rows_one_bad < length rows_one_bad)%nat.
Proof.
  split; [vm_compute; reflexivity|].
  apply (load_expenses_failure_counter rows_one_bad 1). vm_compute. reflexivity.
Defined.
